(** * polargenerator.py: batch generation of airfoil polars

    A shallow embedding of [src/airfoil_data/polargenerator.py] and the
    properties of its batch loop and of its file clean-up.

    - Python numbers are [Py.num]: an [int] is a [Z], a [float] is a
      binary64 primitive float, and [*] promotes as Python does.
    - The working directory is a finite map from file names to contents.
      [os.listdir] returns its names in an arbitrary order, so the listing
      function is a parameter constrained by [listdir_ok].
    - The external solver [aeropy.xfoil_module.call] is a parameter: it may
      rewrite the working directory and it may raise.
    - Exceptions are explicit: a computation returns [Ok v] or [Raise e]
      together with the state reached at that point.
    - The progress line written to standard output is not part of the
      state. *)

From Stdlib Require Import Floats ZArith Uint63.
From stdpp Require Import gmap strings list fin_maps.

Set Warnings "-inexact-float".
Local Open Scope string_scope.
Local Open Scope Z_scope.
Local Open Scope list_scope.

(** ** Python numbers *)

Module Py.

Inductive num : Type :=
| PyInt (z : Z)
| PyFloat (f : float).

(** [float(z)] for an integer that fits in 63 bits. *)
Definition float_of_Z (z : Z) : float :=
  if z <? 0 then PrimFloat.opp (PrimFloat.of_uint63 (Uint63.of_Z (- z)))
  else PrimFloat.of_uint63 (Uint63.of_Z z).

Definition to_float (x : num) : float :=
  match x with
  | PyInt z => float_of_Z z
  | PyFloat f => f
  end.

(** [x * y]: two ints multiply as ints, otherwise both sides are
    converted to float and multiplied in binary64. *)
Definition mul (x y : num) : num :=
  match x, y with
  | PyInt a, PyInt b => PyInt (a * b)
  | _, _ => PyFloat (PrimFloat.mul (to_float x) (to_float y))
  end.

(** [x == y] on numbers of the magnitudes used here. *)
Definition eqb (x y : num) : bool :=
  match x, y with
  | PyInt a, PyInt b => a =? b
  | _, _ => PrimFloat.eqb (to_float x) (to_float y)
  end.

(** [s.startswith(p)], case-sensitive. *)
Definition startswith (s p : string) : bool := String.prefix p s.

End Py.

(** ** numpy.arange on floats *)

Module Np.

(** Ceiling of a finite float; [None] for infinities and NaN. *)
Definition ceil (f : float) : option Z :=
  match Prim2SF f with
  | S754_zero _ => Some 0
  | S754_finite s m e =>
      let q := 2 ^ (- e) in
      Some (if 0 <=? e then (if s then - (Z.pos m * 2 ^ e) else Z.pos m * 2 ^ e)
            else if s then - (Z.pos m / q)
            else - ((- Z.pos m) / q))
  | S754_infinity _ | S754_nan => None
  end.

(** [numpy.arange(start, stop, step)]: [ceil((stop - start) / step)]
    elements; the first two are [start] and [start + step], and element
    [i] is [start + i * delta] with [delta] the difference of the first
    two. A length that is not finite makes numpy raise. *)
Definition arange (start stop step : float) : option (list float) :=
  match ceil ((stop - start) / step)%float with
  | None => None
  | Some n =>
      let delta := ((start + step) - start)%float in
      Some ((fun i : nat =>
               match i with
               | O => start
               | S O => (start + step)%float
               | _ => (start + Py.float_of_Z (Z.of_nat i) * delta)%float
               end) <$> seq 0 (Z.to_nat n))
  end.

End Np.

(** ** Exceptions and the state-and-exception monad *)

Inductive exn : Type :=
| IndexError
| ValueError (msg : string)
| FileNotFoundError (filename : string)
| ExternalError (msg : string).

Inductive outcome (A : Type) : Type :=
| Ok (a : A)
| Raise (e : exn).
Arguments Ok {A} a.
Arguments Raise {A} e.

Definition M (S A : Type) : Type := S -> outcome A * S.

Definition ret {S A} (a : A) : M S A := fun s => (Ok a, s).

Definition raise {S A} (e : exn) : M S A := fun s => (Raise e, s).

Definition bind {S A B} (m : M S A) (k : A -> M S B) : M S B :=
  fun s =>
    match m s with
    | (Ok a, s') => k a s'
    | (Raise e, s') => (Raise e, s')
    end.

Notation "'let*' x := m 'in' k" := (bind m (fun x => k))
  (at level 10, x name, m at level 100, k at level 200).

(** [for x in l: body(x)]; an exception leaves the loop. *)
Fixpoint for_each {S A} (l : list A) (body : A -> M S unit) : M S unit :=
  match l with
  | [] => ret tt
  | x :: l' => let* _ := body x in for_each l' body
  end.

(** ** The working directory *)

Abbreviation dir := (gmap string string).

Module Os.

(** [os.path.exists(p)] *)
Definition path_exists (p : string) : M dir bool :=
  fun d => (Ok (bool_decide (is_Some (d !! p))), d).

(** [os.remove(p)] *)
Definition remove (p : string) : M dir unit :=
  fun d =>
    match d !! p with
    | Some _ => (Ok tt, delete p d)
    | None => (Raise (FileNotFoundError p), d)
    end.

(** [os.rename(old, new)], POSIX: an existing destination is replaced. *)
Definition rename (old new : string) : M dir unit :=
  fun d =>
    match d !! old with
    | Some c => (Ok tt, <[new := c]> (delete old d))
    | None => (Raise (FileNotFoundError old), d)
    end.

End Os.

(** A listing function is admissible when it lists each name of the
    directory exactly once. *)
Definition listdir_ok (ls : dir -> list string) : Prop :=
  forall d, NoDup (ls d) /\ forall f, f ∈ ls d <-> is_Some (d !! f).

(** ** The solver interface *)

Record xf_args : Type := XfArgs {
  xf_airfoil : string;
  alfas : list float;
  output : string;
  Reynolds : Py.num;
  plots : bool;
  NACA : bool;
  iteration : Z
}.

Abbreviation solver := (xf_args -> M dir unit).

(** The solver never raises. *)
Definition solver_returns (xf : solver) : Prop :=
  forall a d, (xf a d).1 = Ok tt.

(** The process state: the working directory and the log of the solver
    calls issued so far. *)
Record world : Type := World {
  files : dir;
  calls : list xf_args
}.

Definition lift_fs {A} (m : M dir A) : M world A :=
  fun w => let '(o, d) := m (files w) in (o, World d (calls w)).

(** ** The script *)

Definition safe_remove (file : string) : M dir unit :=
  let* e := Os.path_exists file in
  if e then Os.remove file else ret tt.

Definition safe_rename (old new : string) : M dir unit :=
  let* e := Os.path_exists new in
  let* _ := (if e then Os.remove new else ret tt) in
  Os.rename old new.

Definition parse_inputs (argv : list string) : outcome string :=
  match argv !! 1%nat with
  | Some airfoil => Ok airfoil
  | None => Raise IndexError
  end.

Definition reynolds : list Py.num :=
  (fun re => Py.mul re (Py.PyInt 100000))
    <$> [Py.PyFloat 0.1; Py.PyFloat 0.5; Py.PyInt 1].

Definition aoa : option (list float) := Np.arange (-20) 25 0.5.

Section Script.

Variable xf_call : solver.
Variable os_listdir : dir -> list string.

(** [xf.call(...)]: the call is logged, then the solver runs on the
    working directory. *)
Definition xf_invoke (a : xf_args) : M world unit :=
  fun w =>
    let '(o, d) := xf_call a (files w) in
    (o, World d (calls w ++ [a])).

Definition cleanup_file (airfoil file : string) : M dir unit :=
  if Py.startswith file "Coordinates_" then
    safe_rename file (airfoil +:+ ".dat")
  else if Py.startswith file "Polar_" then
    safe_rename file (file +:+ ".txt")
  else ret tt.

Definition cleanup (airfoil : string) : M dir unit :=
  let* _ := safe_remove ":00.bl" in
  fun d => for_each (os_listdir d) (cleanup_file airfoil) d.

(** The body of the loop over the Reynolds numbers. *)
Definition polar_step (airfoil : string) (sweep : list float) (re : Py.num)
  : M world unit :=
  if Py.startswith airfoil "naca" then
    xf_invoke (XfArgs airfoil sweep "Polar" re false true 5000)
  else
    let* e1 := lift_fs (Os.path_exists airfoil) in
    let* e2 := (if e1 then ret true
                else lift_fs (Os.path_exists (airfoil +:+ ".dat"))) in
    if e2 then
      xf_invoke (XfArgs airfoil sweep "Polar" re false false 5000)
    else raise (ValueError "Airfoil file not foud").

(** [main] after [parse_inputs]. *)
Definition run (airfoil : string) : M world unit :=
  match aoa with
  | None => raise (ValueError "Maximum allowed size exceeded")
  | Some sweep =>
      let* _ := for_each reynolds (polar_step airfoil sweep) in
      lift_fs (cleanup airfoil)
  end.

Definition main (argv : list string) : M world unit :=
  match parse_inputs argv with
  | Ok airfoil => run airfoil
  | Raise e => raise e
  end.

End Script.

(** ** File names and auxiliary notions *)

Definition is_coord (f : string) : bool := Py.startswith f "Coordinates_".
Definition is_polar (f : string) : bool := Py.startswith f "Polar_".
Definition dat (airfoil : string) : string := airfoil +:+ ".dat".
Definition txt (file : string) : string := file +:+ ".txt".

(** The names one pass over [l] can write to or move away. *)
Definition touched (airfoil : string) (l : list string) (g : string) : Prop :=
  exists p, p ∈ l /\
    ((is_coord p = true /\ (g = p \/ g = dat airfoil)) \/
     (is_coord p = false /\ is_polar p = true /\ (g = p \/ g = txt p))).

(** A generated file is one the loop renames; [dest] is where it goes. *)
Definition generated (p : string) : bool := is_coord p || is_polar p.
Definition dest (airfoil p : string) : string :=
  if is_coord p then dat airfoil else txt p.

(** Where a file of the final directory comes from: it stayed in place,
    or it is the coordinate destination and came from a [Coordinates_]
    file, or both names are [Polar_] names. *)
Definition origin (airfoil src g : string) : Prop :=
  g = src \/ (is_coord src = true /\ g = dat airfoil) \/
  (is_polar src = true /\ is_polar g = true).

(** The sweep from -20 to 24.5 in steps of 0.5: [k / 2] for [k] from
    [-40] to [49]. *)
Definition half_degree_sweep : list float :=
  (fun k : Z => (Py.float_of_Z k / 2)%float) <$> seqZ (-40) 90.

(** The solver call for one Reynolds number. *)
Definition polar_call (airfoil : string) (sweep : list float) (re : Py.num)
  : xf_args :=
  XfArgs airfoil sweep "Polar" re false (Py.startswith airfoil "naca") 5000.

(** The names of the directory in the order of the map's enumeration. *)
Definition listdir_keys (d : dir) : list string := (map_to_list d).*1.

(** The names of [pref] that exist, in that order, followed by the rest. *)
Definition listdir_first (pref : list string) (d : dir) : list string :=
  filter (fun f => is_Some (d !! f)) pref ++
  filter (fun f => f ∉ pref) (listdir_keys d).

(** A solver that returns after writing one polar file and the temporary
    boundary-layer file. *)
Definition solver_stub : solver :=
  fun a d =>
    (Ok tt, <["Polar_" +:+ xf_airfoil a := "polar"]> (<[":00.bl" := "bl"]> d)).

(** ** Example directories *)

(** A directory after a run on ["naca0012"], with two files of the user. *)
Definition dir_after_run : dir :=
  {[ ":00.bl" := "bl"; "Coordinates_naca0012" := "xy-new";
     "Polar_naca0012_10000" := "polar"; "naca0012.dat" := "xy-old";
     "notes.md" := "notes" ]}.

(** A directory without polar files. *)
Definition dir_no_polar : dir :=
  {[ ":00.bl" := "bl"; "Coordinates_naca0012" := "xy"; "notes.md" := "notes" ]}.

(** Two coordinate files, an older [naca0012.dat] and one polar file. *)
Definition dir_two_coordinates : dir :=
  {[ "Coordinates_a" := "xy-a"; "Coordinates_b" := "xy-b";
     "naca0012.dat" := "xy-old"; "Polar_naca0012_10000" := "polar" ]}.

(** ** Plain file names *)

(** The directory state holds the files of the working directory under
    their own names, and [Os.remove] and [Os.rename] act on such names.
    A name with a path separator would be resolved by the operating
    system (["./a"] is the file ["a"]; a rename into a missing
    sub-directory fails), a NUL byte is refused and a name longer than
    255 bytes cannot exist. [plain_name] keeps an identifier inside the
    model: no separator, no NUL, and room for the four bytes of [".dat"]
    or [".txt"]. *)
(** Character 47 is the separator ["/"]. *)
Definition plain_char (c : Ascii.ascii) : bool :=
  negb (Ascii.eqb c (Ascii.ascii_of_nat 47)) && negb (Ascii.eqb c Ascii.zero).

Fixpoint plain_chars (s : string) : bool :=
  match s with
  | EmptyString => true
  | String c s' => plain_char c && plain_chars s'
  end.

Definition plain_name (s : string) : bool :=
  plain_chars s && (String.length s <=? 251)%nat.

(** Every name of the directory is plain. *)
Definition plain_dir (d : gmap string string) : bool :=
  forallb plain_name (map_to_list d).*1.

(** ** Further notions for the whole run *)

(** The coordinate file of the identifier is there: [airfoil] itself or
    [airfoil + ".dat"] exists. *)
Definition has_airfoil_file (airfoil : string) (d : dir) : Prop :=
  is_Some (d !! airfoil) \/ is_Some (d !! dat airfoil).

(** The names of the directory in the opposite order. *)
Definition listdir_reversed (d : dir) : list string :=
  reverse (listdir_keys d).

(** A solver that raises after writing the temporary file. *)
Definition solver_failing : solver :=
  fun a d => (Raise (ExternalError "xfoil"), <[":00.bl" := "bl"]> d).

(** A solver that returns after deleting the coordinate file it was
    given. *)
Definition solver_consuming : solver :=
  fun a d =>
    (Ok tt, delete (xf_airfoil a +:+ ".dat") (delete (xf_airfoil a) d)).

(** A directory with two polar files and the temporary file. *)
Definition dir_two_polars : dir :=
  {[ ":00.bl" := "bl"; "Polar_naca0012_10000" := "polar-1";
     "Polar_naca0012_50000" := "polar-2"; "notes.md" := "notes" ]}.

(** A directory with the files of the user only. *)
Definition dir_plain : dir :=
  {[ ":00.bl" := "bl"; "myfoil.dat" := "xy"; "notes.md" := "notes" ]}.

(** ** Lemmas on file names *)

Section Names.

Lemma app_nil (t : string) : "" +:+ t = t.
Proof. reflexivity. Qed.

Lemma app_cons (c : Ascii.ascii) (s t : string) :
  String c s +:+ t = String c (s +:+ t).
Proof. reflexivity. Qed.

Lemma length_app (s t : string) :
  String.length (s +:+ t) = (String.length s + String.length t)%nat.
Proof.
  induction s as [|c s IH]; [done |].
  rewrite app_cons. simpl. by rewrite IH.
Qed.

Lemma app_suffix_inj (s1 s2 t1 t2 : string) :
  String.length t1 = String.length t2 ->
  s1 +:+ t1 = s2 +:+ t2 -> s1 = s2 /\ t1 = t2.
Proof.
  revert s2. induction s1 as [|a s1 IH]; intros [|b s2] Hlen Heq;
    rewrite ?app_nil, ?app_cons in Heq.
  - done.
  - subst t1. simpl in Hlen. rewrite length_app in Hlen. lia.
  - subst t2. simpl in Hlen. rewrite length_app in Hlen. lia.
  - injection Heq as -> Heq. destruct (IH _ Hlen Heq) as [-> ->]. done.
Qed.

Lemma startswith_spec (s p : string) :
  Py.startswith s p = true <-> exists r, s = p +:+ r.
Proof.
  unfold Py.startswith. revert s.
  induction p as [|a p IH]; intros s.
  - destruct s; split; eauto.
  - destruct s as [|b s]; simpl.
    + split; [done | intros [r Hr]; done].
    + destruct (Ascii.ascii_dec a b) as [->|Hne].
      * rewrite IH. split; intros [r Hr]; exists r.
        -- by rewrite app_cons, Hr.
        -- rewrite app_cons in Hr. congruence.
      * split; [done | intros [r Hr]; rewrite app_cons in Hr; congruence].
Qed.

Lemma startswith_app (s t p : string) :
  Py.startswith s p = true -> Py.startswith (s +:+ t) p = true.
Proof.
  rewrite !startswith_spec. intros [r ->]. exists (r +:+ t).
  clear. induction p as [|a p IH]; [done |].
  by rewrite !app_cons, IH.
Qed.

Lemma coord_not_polar (f : string) : is_coord f = true -> is_polar f = false.
Proof.
  unfold is_coord, is_polar. rewrite startswith_spec.
  intros [r ->]. reflexivity.
Qed.

Lemma polar_txt (f : string) : is_polar f = true -> is_polar (txt f) = true.
Proof. apply startswith_app. Qed.

Lemma txt_not_coord (f : string) : is_polar f = true -> is_coord (txt f) = false.
Proof.
  intros H. apply polar_txt in H.
  destruct (is_coord (txt f)) eqn:E; [|done].
  apply coord_not_polar in E. congruence.
Qed.

Lemma dat_ne_txt (a f : string) : dat a <> txt f.
Proof. intros H. by apply app_suffix_inj in H as [_ ?]. Qed.

Lemma txt_ne_self (f : string) : txt f <> f.
Proof.
  intros H. apply (f_equal String.length) in H.
  unfold txt in H. rewrite length_app in H. simpl in H. lia.
Qed.

Lemma dat_ne_bl (a : string) : dat a <> ":00.bl".
Proof.
  intros H. change ":00.bl" with (":0" +:+ "0.bl") in H.
  by apply app_suffix_inj in H as [_ ?].
Qed.

Lemma txt_ne_bl (f : string) : txt f <> ":00.bl".
Proof.
  intros H. change ":00.bl" with (":0" +:+ "0.bl") in H.
  by apply app_suffix_inj in H as [_ ?].
Qed.

End Names.

(** ** The file operations, evaluated *)

Section FileOps.

Implicit Types (d : dir) (f old new : string).

Lemma safe_remove_eq f d : safe_remove f d = (Ok tt, delete f d).
Proof.
  unfold safe_remove, bind, Os.path_exists, Os.remove, ret.
  destruct (d !! f) as [c|] eqn:E.
  - rewrite bool_decide_eq_true_2 by eauto. by rewrite E.
  - rewrite bool_decide_eq_false_2 by (by intros [? ?]).
    by rewrite (delete_id d f).
Qed.

(** [safe_rename] first clears the destination, then moves the source
    if it is still there. *)
Lemma safe_rename_eq old new d :
  safe_rename old new d =
    match delete new d !! old with
    | Some c => (Ok tt, <[new := c]> (delete old (delete new d)))
    | None => (Raise (FileNotFoundError old), delete new d)
    end.
Proof.
  unfold safe_rename, bind, Os.path_exists, Os.remove, Os.rename, ret.
  destruct (d !! new) as [c|] eqn:E.
  - rewrite bool_decide_eq_true_2 by eauto. by rewrite E.
  - rewrite bool_decide_eq_false_2 by (by intros [? ?]).
    by rewrite (delete_id d new).
Qed.

Lemma safe_rename_ok old new d c :
  old <> new -> d !! old = Some c ->
  safe_rename old new d = (Ok tt, <[new := c]> (delete old (delete new d))).
Proof.
  intros Hne Hold. rewrite safe_rename_eq.
  by rewrite lookup_delete_ne, Hold.
Qed.

Lemma safe_rename_same f d :
  safe_rename f f d = (Raise (FileNotFoundError f), delete f d).
Proof. rewrite safe_rename_eq. by rewrite lookup_delete_eq. Qed.

Lemma safe_rename_frame old new d o d' f :
  safe_rename old new d = (o, d') -> f <> old -> f <> new ->
  d' !! f = d !! f.
Proof.
  rewrite safe_rename_eq. intros H Ho Hn.
  destruct (delete new d !! old); injection H as <- <-.
  - by rewrite lookup_insert_ne, !lookup_delete_ne.
  - by rewrite lookup_delete_ne.
Qed.

Lemma safe_rename_raises old new d e d' :
  safe_rename old new d = (Raise e, d') -> e = FileNotFoundError old.
Proof.
  rewrite safe_rename_eq. destruct (delete new d !! old); congruence.
Qed.

End FileOps.

(** ** The renaming loop of [cleanup] *)

Section Loop.

Variable airfoil : string.
Implicit Types (d : dir) (l : list string) (f g p : string).

Lemma cleanup_eq (ls : dir -> list string) d :
  cleanup ls airfoil d =
    for_each (ls (delete ":00.bl" d)) (cleanup_file airfoil)
      (delete ":00.bl" d).
Proof. unfold cleanup, bind. by rewrite safe_remove_eq. Qed.

Lemma cleanup_file_coord f :
  is_coord f = true -> cleanup_file airfoil f = safe_rename f (dat airfoil).
Proof. unfold cleanup_file, is_coord. by intros ->. Qed.

Lemma cleanup_file_polar f :
  is_coord f = false -> is_polar f = true ->
  cleanup_file airfoil f = safe_rename f (txt f).
Proof. unfold cleanup_file, is_coord, is_polar. by intros -> ->. Qed.

Lemma cleanup_file_other f :
  is_coord f = false -> is_polar f = false ->
  cleanup_file airfoil f = ret tt.
Proof. unfold cleanup_file, is_coord, is_polar. by intros -> ->. Qed.

Lemma for_each_cons {S A} (x : A) (xs : list A) (body : A -> M S unit) s :
  for_each (x :: xs) body s =
    match body x s with
    | (Ok _, s') => for_each xs body s'
    | (Raise e, s') => (Raise e, s')
    end.
Proof. reflexivity. Qed.

Lemma touched_cons p l g :
  touched airfoil (p :: l) g <-> touched airfoil [p] g \/ touched airfoil l g.
Proof.
  unfold touched. split.
  - intros (q & Hq & H). apply elem_of_cons in Hq as [->|Hq].
    + left. exists p. split; [apply list_elem_of_singleton; done | done].
    + right. eauto.
  - intros [(q & Hq & H)|(q & Hq & H)].
    + apply list_elem_of_singleton in Hq as ->. exists p.
      split; [left | done].
    + exists q. split; [by right | done].
Qed.

Lemma step_frame p d o d1 g :
  cleanup_file airfoil p d = (o, d1) -> ~ touched airfoil [p] g ->
  d1 !! g = d !! g.
Proof.
  intros Hstep Hnt.
  assert (Hin : p ∈ [p]) by (by apply list_elem_of_singleton).
  destruct (is_coord p) eqn:Ec; [|destruct (is_polar p) eqn:Ep].
  - rewrite cleanup_file_coord in Hstep by done.
    eapply safe_rename_frame; [done | |];
      intros ->; apply Hnt; exists p; naive_solver.
  - rewrite cleanup_file_polar in Hstep by done.
    eapply safe_rename_frame; [done | |];
      intros ->; apply Hnt; exists p; naive_solver.
  - rewrite cleanup_file_other in Hstep by done.
    by injection Hstep as <- <-.
Qed.

(** Frame rule of the loop: a name that is neither a source nor a
    destination of a rename keeps its content, whatever the outcome. *)
Lemma loop_frame l d o d' g :
  for_each l (cleanup_file airfoil) d = (o, d') -> ~ touched airfoil l g ->
  d' !! g = d !! g.
Proof.
  revert d. induction l as [|p l IH]; intros d Hrun Hnt.
  - by injection Hrun as <- <-.
  - rewrite for_each_cons in Hrun.
    rewrite touched_cons in Hnt.
    destruct (cleanup_file airfoil p d) as [[[]|e] d1] eqn:Hstep.
    + rewrite (IH d1) by tauto. eapply step_frame; [done | tauto].
    + injection Hrun as <- <-. eapply step_frame; [done | tauto].
Qed.

(** An exception of the loop is the failed move of a listed file. *)
Lemma loop_raises l d e d' :
  for_each l (cleanup_file airfoil) d = (Raise e, d') ->
  exists p, p ∈ l /\ e = FileNotFoundError p /\
            (is_coord p = true \/ is_polar p = true).
Proof.
  revert d. induction l as [|p l IH]; intros d Hrun.
  - discriminate.
  - rewrite for_each_cons in Hrun.
    destruct (cleanup_file airfoil p d) as [[[]|e1] d1] eqn:Hstep.
    + destruct (IH _ Hrun) as (q & Hq & He & Hpre).
      exists q. split; [by right | done].
    + injection Hrun as <- <-. exists p. split; [left |].
      destruct (is_coord p) eqn:Ec; [|destruct (is_polar p) eqn:Ep].
      * rewrite cleanup_file_coord in Hstep by done.
        apply safe_rename_raises in Hstep. auto.
      * rewrite cleanup_file_polar in Hstep by done.
        apply safe_rename_raises in Hstep. auto.
      * rewrite cleanup_file_other in Hstep by done. discriminate.
Qed.

(** A listing without generated files leaves the directory alone. *)
Lemma loop_noop l d :
  (forall p, p ∈ l -> is_coord p = false /\ is_polar p = false) ->
  for_each l (cleanup_file airfoil) d = (Ok tt, d).
Proof.
  induction l as [|p l IH]; intros Hl; [done |].
  rewrite for_each_cons.
  destruct (Hl p) as [Ec Ep]; [left |].
  rewrite cleanup_file_other by done. simpl.
  apply IH. intros q Hq. apply Hl. by right.
Qed.

End Loop.

(** ** The loop when the coordinate destination is not itself a generated
       name *)

Section Tidy.

Variable airfoil : string.
Hypothesis dat_not_coord : is_coord (dat airfoil) = false.
Hypothesis dat_not_polar : is_polar (dat airfoil) = false.

Implicit Types (d : dir) (l : list string) (f g p q : string).

Lemma cleanup_file_generated p :
  cleanup_file airfoil p =
    if generated p then safe_rename p (dest airfoil p) else ret tt.
Proof.
  unfold generated, dest.
  destruct (is_coord p) eqn:Ec; [|destruct (is_polar p) eqn:Ep]; simpl.
  - by apply cleanup_file_coord.
  - by apply cleanup_file_polar.
  - by apply cleanup_file_other.
Qed.

Lemma dest_ne p : dest airfoil p <> p.
Proof.
  unfold dest. destruct (is_coord p) eqn:Ec.
  - intros <-. congruence.
  - apply txt_ne_self.
Qed.

Lemma dest_not_coord p :
  generated p = true -> is_coord (dest airfoil p) = false.
Proof.
  unfold generated, dest. destruct (is_coord p); simpl; [done |].
  apply txt_not_coord.
Qed.

Lemma coord_untouched l p :
  is_coord p = true -> p ∉ l -> ~ touched airfoil l p.
Proof.
  intros Hc Hnin (q & Hq & [[Hcq [->| ->]] | (Hcq & Hpq & [->| ->])]).
  - done.
  - congruence.
  - congruence.
  - apply txt_not_coord in Hpq. congruence.
Qed.

Lemma dat_untouched l :
  (forall q, q ∈ l -> is_coord q = false) -> ~ touched airfoil l (dat airfoil).
Proof.
  intros Hl (q & Hq & [[Hcq _] | (Hcq & Hpq & [E|E])]).
  - rewrite (Hl q Hq) in Hcq. done.
  - rewrite <- E in Hpq. congruence.
  - by apply dat_ne_txt in E.
Qed.

(** Every listed generated file is still in place when its turn comes,
    so the loop runs to its end. *)
Lemma loop_ok l d :
  NoDup l ->
  (forall p, p ∈ l -> generated p = true -> is_Some (d !! p)) ->
  exists d', for_each l (cleanup_file airfoil) d = (Ok tt, d').
Proof.
  revert d. induction l as [|p l IH]; intros d Hnd Hin; [by eexists |].
  apply NoDup_cons in Hnd as [Hp Hnd].
  rewrite for_each_cons, cleanup_file_generated.
  destruct (generated p) eqn:Eg.
  - destruct (Hin p) as [c Hc]; [left | done |].
    rewrite (safe_rename_ok _ _ _ c) by (done || by apply not_eq_sym, dest_ne).
    apply IH; [done |]. intros q Hq Hgq.
    destruct (decide (q = dest airfoil p)) as [->|Hne].
    + rewrite lookup_insert_eq. eauto.
    + rewrite lookup_insert_ne by done.
      rewrite !lookup_delete_ne by (done || by intros ->).
      apply Hin; [by right | done].
  - apply IH; [done |]. intros q Hq. apply Hin. by right.
Qed.

(** A listed [Coordinates_] file is gone after the loop. *)
Lemma loop_sources_gone l d d' :
  NoDup l ->
  for_each l (cleanup_file airfoil) d = (Ok tt, d') ->
  forall p, p ∈ l -> is_coord p = true -> d' !! p = None.
Proof.
  revert d. induction l as [|p0 l IH]; intros d Hnd Hrun p Hp Hc.
  - by apply elem_of_nil in Hp.
  - apply NoDup_cons in Hnd as [Hp0 Hnd].
    rewrite for_each_cons in Hrun.
    destruct (cleanup_file airfoil p0 d) as [[[]|e] d1] eqn:Hstep;
      [|discriminate].
    apply elem_of_cons in Hp as [->|Hp]; [|by eapply IH].
    rewrite (loop_frame _ _ _ _ _ _ Hrun (coord_untouched _ _ Hc Hp0)).
    rewrite cleanup_file_coord, safe_rename_eq in Hstep by done.
    destruct (delete (dat airfoil) d !! p0); [|discriminate].
    injection Hstep as <-.
    rewrite lookup_insert_ne by (intros E; congruence).
    apply lookup_delete_eq.
Qed.

(** The destination holds the content of the [Coordinates_] file that
    was listed last. *)
Lemma loop_dat_last l d d' :
  NoDup l ->
  for_each l (cleanup_file airfoil) d = (Ok tt, d') ->
  d' !! dat airfoil =
    match last (filter (fun p => is_coord p = true) l) with
    | Some f => d !! f
    | None => d !! dat airfoil
    end.
Proof.
  revert d. induction l as [|p l IH]; intros d Hnd Hrun.
  - by injection Hrun as <-.
  - apply NoDup_cons in Hnd as [Hp Hnd].
    rewrite for_each_cons in Hrun.
    destruct (cleanup_file airfoil p d) as [[[]|e] d1] eqn:Hstep;
      [|discriminate].
    rewrite (IH _ Hnd Hrun). clear IH Hrun.
    destruct (is_coord p) eqn:Ec.
    + rewrite filter_cons_True, last_cons by done.
      destruct (last (filter _ l)) as [f|] eqn:El.
      * apply last_Some_elem_of, list_elem_of_filter in El as [Hcf Hf].
        eapply step_frame; [done |].
        intros Ht. apply (coord_untouched [p] f Hcf); [|done].
        apply not_elem_of_cons. split; [by intros -> | apply not_elem_of_nil].
      * rewrite cleanup_file_coord, safe_rename_eq in Hstep by done.
        destruct (delete (dat airfoil) d !! p) as [c|] eqn:Ed; [|discriminate].
        injection Hstep as <-. rewrite lookup_insert_eq.
        apply lookup_delete_Some in Ed as [_ Ed]. done.
    + rewrite filter_cons_False by congruence.
      destruct (last (filter _ l)) as [f|] eqn:El.
      * apply last_Some_elem_of, list_elem_of_filter in El as [Hcf Hf].
        eapply step_frame; [done |].
        apply coord_untouched; [done |].
        apply not_elem_of_cons. split; [by intros -> | apply not_elem_of_nil].
      * eapply step_frame; [done |]. apply dat_untouched.
        by intros q ->%list_elem_of_singleton.
Qed.

Lemma safe_rename_origin old new d o d1 g c :
  safe_rename old new d = (o, d1) -> d1 !! g = Some c ->
  d !! g = Some c \/ (g = new /\ d !! old = Some c).
Proof.
  rewrite safe_rename_eq. intros Hrun Hg.
  destruct (delete new d !! old) as [c0|] eqn:Ed; injection Hrun as <- <-.
  - apply lookup_delete_Some in Ed as [_ Ed].
    apply lookup_insert_Some in Hg as [[<- <-]|[_ Hg]]; [by right |].
    apply lookup_delete_Some in Hg as [_ Hg].
    apply lookup_delete_Some in Hg as [_ Hg]. by left.
  - apply lookup_delete_Some in Hg as [_ Hg]. by left.
Qed.

Lemma step_origin p d o d1 g c :
  cleanup_file airfoil p d = (o, d1) -> d1 !! g = Some c ->
  exists src, d !! src = Some c /\
    (g = src \/ (is_coord src = true /\ g = dat airfoil) \/
     (is_polar src = true /\ g = txt src)).
Proof.
  intros Hstep Hg.
  destruct (is_coord p) eqn:Ec; [|destruct (is_polar p) eqn:Ep].
  - rewrite cleanup_file_coord in Hstep by done.
    destruct (safe_rename_origin _ _ _ _ _ _ _ Hstep Hg) as [?|[-> ?]];
      [exists g | exists p]; auto.
  - rewrite cleanup_file_polar in Hstep by done.
    destruct (safe_rename_origin _ _ _ _ _ _ _ Hstep Hg) as [?|[-> ?]];
      [exists g | exists p]; auto.
  - rewrite cleanup_file_other in Hstep by done.
    injection Hstep as <- <-. exists g. auto.
Qed.

Lemma loop_origin l d o d' g c :
  for_each l (cleanup_file airfoil) d = (o, d') -> d' !! g = Some c ->
  exists src, d !! src = Some c /\ origin airfoil src g.
Proof.
  revert d. induction l as [|p l IH]; intros d Hrun Hg.
  - injection Hrun as <- <-. exists g. split; [done | by left].
  - rewrite for_each_cons in Hrun.
    destruct (cleanup_file airfoil p d) as [[[]|e] d1] eqn:Hstep.
    + destruct (IH _ Hrun Hg) as (s1 & Hs1 & Ho).
      destruct (step_origin _ _ _ _ _ _ Hstep Hs1)
        as (s & Hs & [->|[[Hcs ->]|[Hps ->]]]);
        exists s; (split; [done |]); [done | |].
      * destruct Ho as [->|[[_ ->]|[Hpd _]]];
          [right; left; done | right; left; done | congruence].
      * destruct Ho as [->|[[Hct _]|[_ Hpg]]].
        -- right; right. split; [done | by apply polar_txt].
        -- apply txt_not_coord in Hps. congruence.
        -- right; right. done.
    + injection Hrun as <- <-.
      destruct (step_origin _ _ _ _ _ _ Hstep Hg)
        as (s & Hs & [->|[[Hcs ->]|[Hps ->]]]);
        exists s; (split; [done |]).
      * by left.
      * right; left. done.
      * right; right. split; [done | by apply polar_txt].
Qed.

End Tidy.

(** ** Concrete listings and a concrete solver *)

Lemma listdir_keys_ok : listdir_ok listdir_keys.
Proof.
  intros d. split.
  - apply NoDup_fst_map_to_list.
  - intros f. unfold listdir_keys. rewrite list_elem_of_fmap. split.
    + intros ([k c] & -> & H). apply elem_of_map_to_list in H. eauto.
    + intros [c H]. exists (f, c).
      split; [done | by apply elem_of_map_to_list].
Qed.

Lemma listdir_first_ok (pref : list string) :
  NoDup pref -> listdir_ok (listdir_first pref).
Proof.
  intros Hnd d. destruct (listdir_keys_ok d) as [Hk1 Hk2]. split.
  - apply NoDup_app. split; [by apply NoDup_filter |].
    split; [|by apply NoDup_filter].
    intros f [_ Hf]%list_elem_of_filter [Hn _]%list_elem_of_filter. done.
  - intros f. unfold listdir_first.
    rewrite elem_of_app, !list_elem_of_filter, Hk2.
    destruct (decide (f ∈ pref)); tauto.
Qed.

Lemma solver_stub_returns : solver_returns solver_stub.
Proof. intros a d. reflexivity. Qed.

(** A listing of a one-file directory is that file. *)
Lemma listing_singleton (ls : dir -> list string) (f c : string) :
  listdir_ok ls -> ls {[f := c]} = [f].
Proof.
  intros Hok. destruct (Hok {[f := c]}) as [Hnd Hin].
  assert (Hall : forall g, g ∈ ls {[f := c]} <-> g = f).
  { intros g. rewrite Hin. split.
    - intros [c' Hc]. by apply lookup_singleton_Some in Hc as [-> _].
    - intros ->. rewrite lookup_singleton_eq. eauto. }
  destruct (ls {[f := c]}) as [|g l].
  - specialize (proj2 (Hall f) eq_refl) as H. by apply elem_of_nil in H.
  - assert (g = f) as -> by (apply Hall; left).
    destruct l as [|g' l]; [done |].
    assert (g' = f) as -> by (apply Hall; right; left).
    apply NoDup_cons in Hnd as [Hnin _]. exfalso. apply Hnin. left.
Qed.

(** ** The loop over the Reynolds numbers *)

Section Batch.

Variable xf_call : solver.
Variable os_listdir : dir -> list string.
Variable airfoil : string.
Implicit Types (w : world) (re : Py.num) (sweep : list float).

Lemma aoa_eq : aoa = Some half_degree_sweep.
Proof. vm_compute. reflexivity. Qed.

Lemma lift_fs_calls {A} (m : M dir A) w :
  calls (lift_fs m w).2 = calls w.
Proof. unfold lift_fs. by destruct (m (files w)). Qed.

Lemma xf_invoke_calls a w :
  calls (xf_invoke xf_call a w).2 = calls w ++ [a].
Proof. unfold xf_invoke. by destruct (xf_call a (files w)). Qed.

Lemma xf_invoke_returns a w :
  solver_returns xf_call -> (xf_invoke xf_call a w).1 = Ok tt.
Proof.
  intros Hret. unfold xf_invoke. specialize (Hret a (files w)).
  by destruct (xf_call a (files w)).
Qed.

(** One iteration: a parametric identifier goes to the solver; any
    other needs its coordinate file. *)
Lemma polar_step_eq sweep re w :
  polar_step xf_call airfoil sweep re w =
    if Py.startswith airfoil "naca"
       || bool_decide (is_Some (files w !! airfoil))
       || bool_decide (is_Some (files w !! dat airfoil))
    then xf_invoke xf_call (polar_call airfoil sweep re) w
    else (Raise (ValueError "Airfoil file not foud"), w).
Proof.
  unfold polar_step, polar_call, dat.
  destruct (Py.startswith airfoil "naca"); [done |].
  unfold bind, lift_fs, Os.path_exists, ret, raise. simpl.
  destruct w as [d cs]. simpl.
  destruct (bool_decide (is_Some (d !! airfoil))); simpl; [done |].
  destruct (bool_decide (is_Some (d !! (airfoil +:+ ".dat")))); done.
Qed.

(** The calls issued by the loop are an initial segment of one call per
    Reynolds number, in order. *)
Lemma steps_calls sweep (l : list Py.num) w :
  exists k,
    calls (for_each l (polar_step xf_call airfoil sweep) w).2 =
      calls w ++ take k (polar_call airfoil sweep <$> l).
Proof.
  revert w. induction l as [|re l IH]; intros w.
  - exists 0%nat. simpl. by rewrite app_nil_r.
  - rewrite for_each_cons, polar_step_eq.
    destruct (_ || _).
    + pose proof (xf_invoke_calls (polar_call airfoil sweep re) w) as Hc.
      destruct (xf_invoke _ _ w) as [[[]|e] w1]; simpl in Hc.
      * destruct (IH w1) as [k Hk]. exists (S k).
        rewrite Hk, Hc, <- app_assoc. done.
      * exists 1%nat. simpl. by rewrite Hc, take_0.
    + exists 0%nat. simpl. by rewrite app_nil_r.
Qed.

(** With a solver that returns, a parametric identifier gets every
    call. *)
Lemma steps_naca sweep (l : list Py.num) w :
  solver_returns xf_call -> Py.startswith airfoil "naca" = true ->
  exists w',
    for_each l (polar_step xf_call airfoil sweep) w = (Ok tt, w') /\
    calls w' = calls w ++ (polar_call airfoil sweep <$> l).
Proof.
  intros Hret Hnaca. revert w. induction l as [|re l IH]; intros w.
  - exists w. simpl. by rewrite app_nil_r.
  - rewrite for_each_cons, polar_step_eq, Hnaca. simpl.
    pose proof (xf_invoke_calls (polar_call airfoil sweep re) w) as Hc.
    pose proof (xf_invoke_returns (polar_call airfoil sweep re) w Hret) as Ho.
    destruct (xf_invoke _ _ w) as [o w1]; simpl in Hc, Ho. subst o.
    destruct (IH w1) as (w' & Hrun & Hcs). exists w'.
    split; [done |]. by rewrite Hcs, Hc, <- app_assoc.
Qed.

Lemma run_eq w :
  run xf_call os_listdir airfoil w =
    match for_each reynolds (polar_step xf_call airfoil half_degree_sweep) w with
    | (Ok _, w') => lift_fs (cleanup os_listdir airfoil) w'
    | (Raise e, w') => (Raise e, w')
    end.
Proof. unfold run. rewrite aoa_eq. reflexivity. Qed.

Lemma run_calls w :
  calls (run xf_call os_listdir airfoil w).2 =
    calls (for_each reynolds (polar_step xf_call airfoil half_degree_sweep) w).2.
Proof.
  rewrite run_eq.
  destruct (for_each _ _ w) as [[[]|e] w']; [|done].
  apply lift_fs_calls.
Qed.

End Batch.

(** ** Properties of [cleanup] *)

Section Cleanup.

Variable os_listdir : dir -> list string.
Variable airfoil : string.
Implicit Types (d : dir) (l : list string) (f g p : string).

Lemma bl_untouched l : ~ touched airfoil l ":00.bl".
Proof.
  intros (q & _ & [[Hc [<-|E]] | (_ & Hp & [<-|E])]).
  - discriminate.
  - by apply eq_sym, dat_ne_bl in E.
  - discriminate.
  - by apply eq_sym, txt_ne_bl in E.
Qed.

Lemma plain_untouched l g :
  is_coord g = false -> is_polar g = false -> g <> dat airfoil ->
  ~ touched airfoil l g.
Proof.
  intros Hc Hp Hd (q & _ & [[Hcq [->|E]] | (_ & Hpq & [->|E])]).
  - congruence.
  - done.
  - congruence.
  - subst g. apply polar_txt in Hpq. congruence.
Qed.

(** What [cleanup] does when [airfoil + ".dat"] is not itself a
    generated name and the listing is admissible. *)
Lemma cleanup_tidy d :
  listdir_ok os_listdir ->
  is_coord (dat airfoil) = false -> is_polar (dat airfoil) = false ->
  exists d',
    cleanup os_listdir airfoil d = (Ok tt, d') /\
    d' !! ":00.bl" = None /\
    (forall f, is_coord f = true -> d' !! f = None) /\
    d' !! dat airfoil =
      match last (filter (fun p => is_coord p = true)
                    (os_listdir (delete ":00.bl" d))) with
      | Some f => d !! f
      | None => d !! dat airfoil
      end /\
    (forall g c, d' !! g = Some c ->
       exists src, d !! src = Some c /\ origin airfoil src g).
Proof.
  intros Hok Hdc Hdp. rewrite cleanup_eq.
  set (d0 := delete ":00.bl" d).
  destruct (Hok d0) as [Hnd Hin].
  destruct (loop_ok airfoil Hdc Hdp (os_listdir d0) d0 Hnd) as [d' Hrun].
  { intros p Hp _. by apply Hin. }
  exists d'. split; [done |]. repeat split.
  - rewrite (loop_frame _ _ _ _ _ _ Hrun (bl_untouched _)).
    apply lookup_delete_eq.
  - intros f Hc. destruct (decide (f ∈ os_listdir d0)) as [Hf|Hf].
    + by eapply loop_sources_gone.
    + rewrite (loop_frame _ _ _ _ _ _ Hrun
                 (coord_untouched airfoil Hdc Hdp _ _ Hc Hf)).
      apply eq_None_not_Some. by rewrite <- Hin.
  - rewrite (loop_dat_last airfoil Hdc Hdp _ _ _ Hnd Hrun).
    destruct (last _) as [f|] eqn:El.
    + apply last_Some_elem_of, list_elem_of_filter in El as [Hcf _].
      apply lookup_delete_ne. by intros <-.
    + apply lookup_delete_ne. apply not_eq_sym, dat_ne_bl.
  - intros g c Hg.
    destruct (loop_origin airfoil Hdp _ _ _ _ _ _ Hrun Hg) as (src & Hs & Ho).
    exists src. split; [|done].
    by apply lookup_delete_Some in Hs as [_ Hs].
Qed.

End Cleanup.

(** C7. [cleanup] leaves no file named [":00.bl"]: the removal step
    deletes it when it is there and returns normally in either case, the
    later renames never create it, and no exception of [cleanup] is about
    that name (an exception can only be the failed move of a
    [Coordinates_] or [Polar_] file). *)
Theorem cleanup_removes_temp_file
    (os_listdir : dir -> list string) (airfoil : string) (d : dir) :
  (cleanup os_listdir airfoil d).2 !! ":00.bl" = None /\
  safe_remove ":00.bl" d = (Ok tt, delete ":00.bl" d) /\
  (d !! ":00.bl" = None -> safe_remove ":00.bl" d = (Ok tt, d)) /\
  (forall e, (cleanup os_listdir airfoil d).1 = Raise e ->
     exists p, e = FileNotFoundError p /\ p <> ":00.bl" /\
               (is_coord p = true \/ is_polar p = true)).
Proof.
  repeat split.
  - rewrite cleanup_eq.
    destruct (for_each _ _ _) as [o d'] eqn:Hrun. simpl.
    rewrite (loop_frame _ _ _ _ _ _ Hrun (bl_untouched _ _)).
    apply lookup_delete_eq.
  - apply safe_remove_eq.
  - intros Habs. rewrite safe_remove_eq. by rewrite (delete_id d ":00.bl").
  - intros e. rewrite cleanup_eq.
    destruct (for_each _ _ _) as [o d'] eqn:Hrun. simpl. intros ->.
    apply loop_raises in Hrun as (p & _ & -> & Hpre).
    exists p. split; [done |]. split; [|done].
    intros ->. by destruct Hpre.
Qed.

(** C9, amended. [cleanup] leaves unchanged every name that is not
    [":00.bl"], starts with neither ["Coordinates_"] nor ["Polar_"], and
    is not the coordinate destination [airfoil + ".dat"]; this holds for
    any listing order and whether or not [cleanup] raises.
    The identifier and the names of the directory are plain names:
    no path separator, so every rename stays inside the directory. *)
Theorem cleanup_frame
    (os_listdir : dir -> list string) (airfoil : string) (d : dir)
    (g : string) :
  plain_name airfoil = true -> plain_dir d = true ->
  g <> ":00.bl" -> is_coord g = false -> is_polar g = false ->
  g <> dat airfoil ->
  (cleanup os_listdir airfoil d).2 !! g = d !! g.
Proof.
  intros _ _.
  intros Hbl Hc Hp Hd. rewrite cleanup_eq.
  destruct (for_each _ _ _) as [o d'] eqn:Hrun. simpl.
  rewrite (loop_frame _ _ _ _ _ _ Hrun (plain_untouched _ _ _ Hc Hp Hd)).
  by apply lookup_delete_ne.
Qed.

Lemma cleanup_frame_witness :
  plain_name "naca0012" = true /\ plain_dir dir_after_run = true /\
  "notes.md" <> ":00.bl" /\ is_coord "notes.md" = false /\
  is_polar "notes.md" = false /\ "notes.md" <> dat "naca0012" /\
  (cleanup listdir_keys "naca0012" dir_after_run).2 !! "notes.md"
    = dir_after_run !! "notes.md".
Proof.
  split; [reflexivity |]. split; [vm_compute; reflexivity |].
  split_and!; [done .. |].
  apply (cleanup_frame listdir_keys "naca0012" dir_after_run "notes.md"
           eq_refl eq_refl);
    done.
Defined.

(** C9, as stated, fails: a file named [airfoil + ".dat"] matches none of
    the three shapes, yet the rename of a [Coordinates_] file replaces
    it. *)
Lemma cleanup_overwrites_dat :
  listdir_ok listdir_keys /\
  "naca0012.dat" <> ":00.bl" /\ is_coord "naca0012.dat" = false /\
  is_polar "naca0012.dat" = false /\
  dir_after_run !! "naca0012.dat" = Some "xy-old" /\
  (cleanup listdir_keys "naca0012" dir_after_run).2 !! "naca0012.dat"
    = Some "xy-new".
Proof.
  split_and!; [apply listdir_keys_ok | done .. |].
  vm_compute. reflexivity.
Qed.

(** C1, amended. When no file name starts with ["Polar_"] and
    [airfoil + ".dat"] starts with neither ["Coordinates_"] nor ["Polar_"],
    a second [cleanup] changes nothing: both runs return normally and the
    directory after two runs is the directory after one.
    The identifier and the names of the directory are plain names:
    no path separator, so every rename stays inside the directory. *)
Theorem cleanup_twice_without_polar
    (os_listdir : dir -> list string) (airfoil : string) (d : dir) :
  plain_name airfoil = true -> plain_dir d = true ->
  listdir_ok os_listdir ->
  is_coord (dat airfoil) = false -> is_polar (dat airfoil) = false ->
  (forall f, is_polar f = true -> d !! f = None) ->
  exists d',
    cleanup os_listdir airfoil d = (Ok tt, d') /\
    cleanup os_listdir airfoil d' = (Ok tt, d') /\
    (let* _ := cleanup os_listdir airfoil in cleanup os_listdir airfoil) d
      = (Ok tt, d').
Proof.
  intros _ _.
  intros Hok Hdc Hdp Hnp.
  destruct (cleanup_tidy os_listdir airfoil d Hok Hdc Hdp)
    as (d' & Hrun & Hbl & Hcoord & _ & Horigin).
  assert (Hpolar : forall g, is_polar g = true -> d' !! g = None).
  { intros g Hg. apply eq_None_not_Some. intros [c Hc].
    destruct (Horigin g c Hc) as (src & Hs & [->|[[_ ->]|[Hps _]]]).
    - rewrite (Hnp src Hg) in Hs. done.
    - congruence.
    - rewrite (Hnp src Hps) in Hs. done. }
  assert (Hagain : cleanup os_listdir airfoil d' = (Ok tt, d')).
  { rewrite cleanup_eq, (delete_id d' ":00.bl") by done.
    apply loop_noop. intros p Hp.
    apply (proj2 (Hok d')) in Hp as [c Hc].
    split; apply not_true_is_false; intros E.
    - rewrite (Hcoord p E) in Hc. done.
    - rewrite (Hpolar p E) in Hc. done. }
  exists d'. split_and!; [done | done |].
  unfold bind. rewrite Hrun. done.
Qed.

Lemma cleanup_twice_without_polar_witness :
  plain_name "naca0012" = true /\ plain_dir dir_no_polar = true /\
  listdir_ok listdir_keys /\
  is_coord (dat "naca0012") = false /\ is_polar (dat "naca0012") = false /\
  (forall f, is_polar f = true -> dir_no_polar !! f = None) /\
  exists d',
    cleanup listdir_keys "naca0012" dir_no_polar = (Ok tt, d') /\
    cleanup listdir_keys "naca0012" d' = (Ok tt, d') /\
    (let* _ := cleanup listdir_keys "naca0012" in
     cleanup listdir_keys "naca0012") dir_no_polar = (Ok tt, d').
Proof.
  split; [reflexivity |]. split; [vm_compute; reflexivity |].
  assert (Hnp : forall f, is_polar f = true -> dir_no_polar !! f = None).
  { intros f Hf. apply eq_None_not_Some. intros [c Hc].
    unfold dir_no_polar in Hc.
    repeat (apply lookup_insert_Some in Hc as [[<- _]|[_ Hc]];
            [discriminate Hf |]).
    by apply lookup_singleton_Some in Hc as [<- _]. }
  split_and!; [apply listdir_keys_ok | done | done | done |].
  apply (cleanup_twice_without_polar listdir_keys "naca0012" dir_no_polar
           eq_refl eq_refl);
    [apply listdir_keys_ok | done | done | done].
Defined.

(** C1, as stated, fails: a renamed polar file still starts with
    ["Polar_"], so a second [cleanup] appends [".txt"] once more and the
    file present after one run is absent after two. *)
Lemma cleanup_twice_appends_txt_again :
  listdir_ok listdir_keys /\
  cleanup listdir_keys "naca0012" {[ "Polar_naca0012_10000" := "polar" ]}
    = (Ok tt, {[ "Polar_naca0012_10000.txt" := "polar" ]}) /\
  (let* _ := cleanup listdir_keys "naca0012" in
   cleanup listdir_keys "naca0012") {[ "Polar_naca0012_10000" := "polar" ]}
    = (Ok tt, {[ "Polar_naca0012_10000.txt.txt" := "polar" ]}) /\
  ({[ "Polar_naca0012_10000.txt" := "polar" ]} : dir)
    !! "Polar_naca0012_10000.txt" = Some "polar" /\
  ({[ "Polar_naca0012_10000.txt.txt" := "polar" ]} : dir)
    !! "Polar_naca0012_10000.txt" = None.
Proof.
  split_and!; [apply listdir_keys_ok | vm_compute; reflexivity ..].
Qed.

(** ** Renaming a file onto itself *)

(** Whenever source and destination differ and the source exists,
    [safe_rename] replaces the destination by the source. *)
Lemma safe_rename_overwrites (old new : string) (d : dir) (c : string) :
  old <> new -> d !! old = Some c ->
  exists d', safe_rename old new d = (Ok tt, d') /\
             d' !! new = Some c /\ d' !! old = None.
Proof.
  intros Hne Hold. eexists. split; [by apply safe_rename_ok |]. split.
  - apply lookup_insert_eq.
  - rewrite lookup_insert_ne by done. apply lookup_delete_eq.
Qed.

(** C6, at the failing input. With the identifier
    ["Coordinates_naca0012"] and its coordinate file
    ["Coordinates_naca0012.dat"] in the directory, the rename has the same
    source and destination: the destination is deleted first, the rename
    then finds no source, so [cleanup] raises and the file is lost. *)
Theorem cleanup_self_rename_loses_file (os_listdir : dir -> list string) :
  listdir_ok os_listdir ->
  cleanup os_listdir "Coordinates_naca0012"
    {[ "Coordinates_naca0012.dat" := "xy" ]}
  = (Raise (FileNotFoundError "Coordinates_naca0012.dat"), ∅).
Proof.
  intros Hok. rewrite cleanup_eq.
  rewrite delete_singleton_ne by done.
  rewrite (listing_singleton _ _ _ Hok).
  rewrite for_each_cons.
  rewrite cleanup_file_coord by done.
  change (dat "Coordinates_naca0012") with "Coordinates_naca0012.dat".
  rewrite safe_rename_same. by rewrite delete_singleton_eq.
Qed.

Lemma cleanup_self_rename_loses_file_witness :
  listdir_ok listdir_keys /\
  cleanup listdir_keys "Coordinates_naca0012"
    {[ "Coordinates_naca0012.dat" := "xy" ]}
  = (Raise (FileNotFoundError "Coordinates_naca0012.dat"), ∅).
Proof.
  split; [apply listdir_keys_ok |].
  apply (cleanup_self_rename_loses_file listdir_keys listdir_keys_ok).
Defined.

(** ** Several coordinate files *)

(** C10, amended. When [airfoil + ".dat"] starts with neither
    ["Coordinates_"] nor ["Polar_"] and the directory holds more than one
    [Coordinates_] file, [cleanup] returns normally, no [Coordinates_]
    name is left, [airfoil + ".dat"] holds the content of the one listed
    last, and every other file of the final directory holds the content
    of a file that was not a [Coordinates_] file.
    The identifier and the names of the directory are plain names:
    no path separator, so every rename stays inside the directory. *)
Theorem cleanup_keeps_one_coordinates_file
    (os_listdir : dir -> list string) (airfoil : string) (d : dir)
    (f1 f2 : string) :
  plain_name airfoil = true -> plain_dir d = true ->
  listdir_ok os_listdir ->
  is_coord (dat airfoil) = false -> is_polar (dat airfoil) = false ->
  f1 <> f2 -> is_coord f1 = true -> is_coord f2 = true ->
  is_Some (d !! f1) -> is_Some (d !! f2) ->
  exists d',
    cleanup os_listdir airfoil d = (Ok tt, d') /\
    (forall f, is_coord f = true -> d' !! f = None) /\
    (exists f c,
       last (filter (fun p => is_coord p = true)
               (os_listdir (delete ":00.bl" d))) = Some f /\
       is_coord f = true /\ d !! f = Some c /\
       d' !! dat airfoil = Some c) /\
    (forall g c, g <> dat airfoil -> d' !! g = Some c ->
       exists src, is_coord src = false /\ d !! src = Some c).
Proof.
  intros _ _.
  intros Hok Hdc Hdp _ Hc1 _ Hin1 _.
  destruct (cleanup_tidy os_listdir airfoil d Hok Hdc Hdp)
    as (d' & Hrun & _ & Hcoord & Hdat & Horigin).
  exists d'. split_and!; [done | done | |].
  - destruct (Hok (delete ":00.bl" d)) as [_ Hin].
    destruct (last _) as [f|] eqn:El.
    + apply last_Some_elem_of, list_elem_of_filter in El as [Hcf Hf].
      apply Hin in Hf as [c Hf].
      apply lookup_delete_Some in Hf as [_ Hf].
      exists f, c. split_and!; [done | done | done | by rewrite Hdat].
    + apply last_None in El.
      assert (Hf1 : f1 ∈ filter (fun p => is_coord p = true)
                           (os_listdir (delete ":00.bl" d))).
      { apply list_elem_of_filter. split; [done |]. apply Hin.
        rewrite lookup_delete_ne; [done | by intros <-]. }
      rewrite El in Hf1. by apply elem_of_nil in Hf1.
  - intros g c Hg Hc.
    destruct (Horigin g c Hc) as (src & Hs & [->|[[_ ->]|[Hps _]]]).
    + exists src. split; [|done].
      apply not_true_is_false. intros E. rewrite (Hcoord src E) in Hc. done.
    + done.
    + exists src. split; [|done].
      apply not_true_is_false. intros E.
      apply coord_not_polar in E. congruence.
Qed.

Lemma cleanup_keeps_one_coordinates_file_witness :
  plain_name "naca0012" = true /\ plain_dir dir_two_coordinates = true /\
  listdir_ok listdir_keys /\
  is_coord (dat "naca0012") = false /\ is_polar (dat "naca0012") = false /\
  "Coordinates_a" <> "Coordinates_b" /\
  is_coord "Coordinates_a" = true /\ is_coord "Coordinates_b" = true /\
  is_Some (dir_two_coordinates !! "Coordinates_a") /\
  is_Some (dir_two_coordinates !! "Coordinates_b") /\
  exists d',
    cleanup listdir_keys "naca0012" dir_two_coordinates = (Ok tt, d') /\
    (forall f, is_coord f = true -> d' !! f = None) /\
    (exists f c,
       last (filter (fun p => is_coord p = true)
               (listdir_keys (delete ":00.bl" dir_two_coordinates))) = Some f /\
       is_coord f = true /\ dir_two_coordinates !! f = Some c /\
       d' !! dat "naca0012" = Some c) /\
    (forall g c, g <> dat "naca0012" -> d' !! g = Some c ->
       exists src, is_coord src = false /\ dir_two_coordinates !! src = Some c).
Proof.
  split; [reflexivity |]. split; [vm_compute; reflexivity |].
  split_and!; [apply listdir_keys_ok | done | done | done | done | done
              | by eexists | by eexists |].
  apply (cleanup_keeps_one_coordinates_file listdir_keys "naca0012"
           dir_two_coordinates "Coordinates_a" "Coordinates_b"
           eq_refl eq_refl);
    [apply listdir_keys_ok | done | done | done | done | done
    | by eexists | by eexists].
Defined.

(** C10, as stated, fails when [airfoil + ".dat"] is itself a [Polar_]
    name that the listing places between two [Coordinates_] files: the
    first content is moved on to a [.txt] name before the second rename
    arrives, and both contents survive. *)
Lemma cleanup_two_coordinates_survive :
  listdir_ok
    (listdir_first ["Coordinates_a"; "Polar_x.dat"; "Coordinates_b"]) /\
  cleanup (listdir_first ["Coordinates_a"; "Polar_x.dat"; "Coordinates_b"])
    "Polar_x"
    {[ "Coordinates_a" := "xy-a"; "Coordinates_b" := "xy-b";
       "Polar_x.dat" := "xy-old" ]}
  = (Ok tt, {[ "Polar_x.dat.txt" := "xy-a"; "Polar_x.dat" := "xy-b" ]}).
Proof.
  split.
  - apply listdir_first_ok. compute_done.
  - vm_compute. reflexivity.
Qed.

(** ** Properties of the batch loop *)

(** Without a coordinate file the first iteration raises, before any
    call and before [cleanup]. *)
Lemma run_without_file
    (xf_call : solver) (os_listdir : dir -> list string)
    (airfoil : string) (w : world) :
  Py.startswith airfoil "naca" = false ->
  files w !! airfoil = None -> files w !! dat airfoil = None ->
  run xf_call os_listdir airfoil w
    = (Raise (ValueError "Airfoil file not foud"), w).
Proof.
  intros Hnaca Ha Hd. rewrite run_eq. unfold reynolds.
  rewrite fmap_cons, for_each_cons, polar_step_eq, Hnaca, Ha, Hd.
  rewrite !bool_decide_eq_false_2 by (by intros [? ?]). done.
Qed.

(** C2. For a parametric identifier and a solver that returns, [run]
    issues one solver call per Reynolds number, in the order of the
    list, and every call carries the sweep that [run] built once. *)
Theorem run_one_call_per_reynolds
    (xf_call : solver) (os_listdir : dir -> list string)
    (airfoil : string) (w : world) :
  solver_returns xf_call -> Py.startswith airfoil "naca" = true ->
  exists sweep cs,
    aoa = Some sweep /\
    calls (run xf_call os_listdir airfoil w).2 = calls w ++ cs /\
    length cs = length reynolds /\
    Reynolds <$> cs = reynolds /\
    Forall (fun c => alfas c = sweep) cs.
Proof.
  intros Hret Hnaca.
  exists half_degree_sweep, (polar_call airfoil half_degree_sweep <$> reynolds).
  destruct (steps_naca xf_call airfoil half_degree_sweep reynolds w Hret Hnaca)
    as (w' & Hrun & Hcs).
  split_and!.
  - apply aoa_eq.
  - by rewrite run_calls, Hrun.
  - apply length_fmap.
  - rewrite <- list_fmap_compose. apply list_fmap_id.
  - apply Forall_fmap, Forall_forall. done.
Qed.

Lemma run_one_call_per_reynolds_witness :
  solver_returns solver_stub /\ Py.startswith "naca0012" "naca" = true /\
  exists sweep cs,
    aoa = Some sweep /\
    calls (run solver_stub listdir_keys "naca0012" (World ∅ [])).2 = [] ++ cs /\
    length cs = length reynolds /\
    Reynolds <$> cs = reynolds /\
    Forall (fun c => alfas c = sweep) cs.
Proof.
  split_and!; [apply solver_stub_returns | done |].
  apply (run_one_call_per_reynolds solver_stub listdir_keys "naca0012"
           (World ∅ []));
    [apply solver_stub_returns | done].
Defined.

(** C3. For an identifier that does not start with ["naca"], when
    neither the file of that name nor the one with [".dat"] appended
    exists, [run] raises the missing-file error, the log of solver calls
    is unchanged and so is the directory. *)
Theorem run_missing_file_raises_before_any_call
    (xf_call : solver) (os_listdir : dir -> list string)
    (airfoil : string) (w : world) :
  Py.startswith airfoil "naca" = false ->
  files w !! airfoil = None -> files w !! (airfoil +:+ ".dat") = None ->
  run xf_call os_listdir airfoil w
    = (Raise (ValueError "Airfoil file not foud"), w) /\
  calls (run xf_call os_listdir airfoil w).2 = calls w.
Proof.
  intros Hnaca Ha Hd.
  rewrite (run_without_file xf_call os_listdir airfoil w Hnaca Ha Hd). done.
Qed.

Lemma run_missing_file_raises_before_any_call_witness :
  Py.startswith "myfoil" "naca" = false /\
  (∅ : dir) !! "myfoil" = None /\ (∅ : dir) !! "myfoil.dat" = None /\
  run solver_stub listdir_keys "myfoil" (World ∅ [])
    = (Raise (ValueError "Airfoil file not foud"), World ∅ []) /\
  calls (run solver_stub listdir_keys "myfoil" (World ∅ [])).2 = [].
Proof.
  split_and!; [done | done | done | |];
    apply (run_missing_file_raises_before_any_call solver_stub listdir_keys
             "myfoil" (World ∅ [])); done.
Defined.

(** C4. The Reynolds list is [10000.0, 50000.0, 100000], which equals
    [1e4, 5e4, 1e5] number by number, and with a solver that returns the
    identifier ["naca0012"] gets exactly three calls. *)
Theorem reynolds_list_and_three_calls
    (xf_call : solver) (os_listdir : dir -> list string) (w : world) :
  solver_returns xf_call ->
  reynolds = [Py.PyFloat 10000; Py.PyFloat 50000; Py.PyInt 100000] /\
  Forall2 (fun x y => Py.eqb x (Py.PyFloat y) = true)
    reynolds [1e4; 5e4; 1e5]%float /\
  exists c1 c2 c3,
    calls (run xf_call os_listdir "naca0012" w).2 = calls w ++ [c1; c2; c3].
Proof.
  intros Hret. split_and!.
  - vm_compute. reflexivity.
  - repeat constructor.
  - destruct (steps_naca xf_call "naca0012" half_degree_sweep reynolds w Hret)
      as (w' & Hrun & Hcs); [done |].
    rewrite run_calls, Hrun. simpl. rewrite Hcs. unfold reynolds.
    rewrite !fmap_cons. eauto.
Qed.

Lemma reynolds_list_and_three_calls_witness :
  solver_returns solver_stub /\
  reynolds = [Py.PyFloat 10000; Py.PyFloat 50000; Py.PyInt 100000] /\
  Forall2 (fun x y => Py.eqb x (Py.PyFloat y) = true)
    reynolds [1e4; 5e4; 1e5]%float /\
  exists c1 c2 c3,
    calls (run solver_stub listdir_keys "naca0012" (World ∅ [])).2
      = [] ++ [c1; c2; c3].
Proof.
  split; [apply solver_stub_returns |].
  apply (reynolds_list_and_three_calls solver_stub listdir_keys (World ∅ [])
           solver_stub_returns).
Defined.

(** C5. For a parametric identifier, whatever the solver does, the calls
    issued by [run] are the first calls of the list that has, for each
    Reynolds number in order, the call with the sweep from -20 to 24.5 in
    steps of 0.5, that Reynolds number, plotting off, the parametric mode
    and 5000 iterations. The sweep has 90 angles. *)
Theorem run_call_arguments
    (xf_call : solver) (os_listdir : dir -> list string)
    (airfoil : string) (w : world) :
  Py.startswith airfoil "naca" = true ->
  (exists k,
     calls (run xf_call os_listdir airfoil w).2 =
       calls w ++
       take k ((fun re => XfArgs airfoil half_degree_sweep "Polar" re
                            false true 5000) <$> reynolds)) /\
  aoa = Some half_degree_sweep /\
  length half_degree_sweep = 90%nat /\
  head half_degree_sweep = Some (-20)%float /\
  last half_degree_sweep = Some 24.5%float.
Proof.
  intros Hnaca. split_and!.
  - destruct (steps_calls xf_call airfoil half_degree_sweep reynolds w)
      as [k Hk].
    exists k. rewrite run_calls, Hk. unfold polar_call. by rewrite Hnaca.
  - apply aoa_eq.
  - reflexivity.
  - reflexivity.
  - vm_compute. reflexivity.
Qed.

Lemma run_call_arguments_witness :
  Py.startswith "naca0012" "naca" = true /\
  (exists k,
     calls (run solver_stub listdir_keys "naca0012" (World ∅ [])).2 =
       [] ++
       take k ((fun re => XfArgs "naca0012" half_degree_sweep "Polar" re
                            false true 5000) <$> reynolds)) /\
  aoa = Some half_degree_sweep /\
  length half_degree_sweep = 90%nat /\
  head half_degree_sweep = Some (-20)%float /\
  last half_degree_sweep = Some 24.5%float.
Proof.
  split; [done |].
  apply (run_call_arguments solver_stub listdir_keys "naca0012" (World ∅ [])).
  done.
Defined.

(** C8. The mode test is the case-sensitive prefix test on ["naca"]:
    ["NACA0012"] fails it. For an identifier that fails it, every
    iteration calls the solver in coordinate-file mode when the file of
    that name or the one with [".dat"] appended exists and raises
    otherwise. So [run] raises the missing-file error, with nothing done,
    when neither file exists; when one exists it issues at least the
    first call, and every call it issues is in coordinate-file mode. *)
Theorem run_coordinate_file_mode
    (xf_call : solver) (os_listdir : dir -> list string)
    (airfoil : string) (w : world) :
  Py.startswith airfoil "naca" = false ->
  Py.startswith "NACA0012" "naca" = false /\
  (forall s, Py.startswith s "naca" = true <-> exists r, s = "naca" +:+ r) /\
  (forall sweep re w1,
     polar_step xf_call airfoil sweep re w1 =
       if bool_decide (is_Some (files w1 !! airfoil))
          || bool_decide (is_Some (files w1 !! (airfoil +:+ ".dat")))
       then xf_invoke xf_call
              (XfArgs airfoil sweep "Polar" re false false 5000) w1
       else (Raise (ValueError "Airfoil file not foud"), w1)) /\
  (exists k,
     calls (run xf_call os_listdir airfoil w).2 =
       calls w ++
       take k ((fun re => XfArgs airfoil half_degree_sweep "Polar" re
                            false false 5000) <$> reynolds)) /\
  (files w !! airfoil = None -> files w !! (airfoil +:+ ".dat") = None ->
   run xf_call os_listdir airfoil w
     = (Raise (ValueError "Airfoil file not foud"), w)) /\
  (is_Some (files w !! airfoil) \/
   is_Some (files w !! (airfoil +:+ ".dat")) ->
   exists k,
     calls (run xf_call os_listdir airfoil w).2 =
       calls w ++
       take (S k) ((fun re => XfArgs airfoil half_degree_sweep "Polar" re
                                false false 5000) <$> reynolds)).
Proof.
  intros Hnaca. split_and!.
  - reflexivity.
  - intros s. apply startswith_spec.
  - intros sweep re w1. rewrite polar_step_eq. unfold polar_call.
    by rewrite Hnaca.
  - destruct (steps_calls xf_call airfoil half_degree_sweep reynolds w)
      as [k Hk].
    exists k. rewrite run_calls, Hk. unfold polar_call. by rewrite Hnaca.
  - intros Ha Hd. by apply run_without_file.
  - intros Hw. rewrite run_calls. unfold reynolds.
    rewrite !fmap_cons, for_each_cons, polar_step_eq, Hnaca.
    assert (false || bool_decide (is_Some (files w !! airfoil))
            || bool_decide (is_Some (files w !! dat airfoil)) = true) as ->.
    { destruct Hw as [H|H]; rewrite (bool_decide_eq_true_2 _ H);
        [done | apply orb_true_r]. }
    set (re0 := Py.mul (Py.PyFloat 0.1) (Py.PyInt 100000)).
    pose proof (xf_invoke_calls xf_call
                  (polar_call airfoil half_degree_sweep re0) w) as Hc.
    unfold polar_call in *. rewrite Hnaca in *.
    destruct (xf_invoke _ _ w) as [[[]|e] w1]; simpl in Hc.
    + match goal with
      | |- context [for_each ?l _ w1] =>
          destruct (steps_calls xf_call airfoil half_degree_sweep l w1)
            as [k Hk]
      end.
      exists k. unfold polar_call in Hk. rewrite Hnaca in Hk.
      rewrite Hk, Hc, <- app_assoc. done.
    + exists 0%nat. simpl. by rewrite Hc.
Qed.

Lemma run_coordinate_file_mode_witness :
  Py.startswith "NACA0012" "naca" = false /\
  (forall sweep re w1,
     polar_step solver_stub "NACA0012" sweep re w1 =
       if bool_decide (is_Some (files w1 !! "NACA0012"))
          || bool_decide (is_Some (files w1 !! ("NACA0012" +:+ ".dat")))
       then xf_invoke solver_stub
              (XfArgs "NACA0012" sweep "Polar" re false false 5000) w1
       else (Raise (ValueError "Airfoil file not foud"), w1)) /\
  (exists k,
     calls (run solver_stub listdir_keys "NACA0012"
              (World {[ "NACA0012.dat" := "xy" ]} [])).2 =
       [] ++
       take k ((fun re => XfArgs "NACA0012" half_degree_sweep "Polar" re
                            false false 5000) <$> reynolds)) /\
  run solver_stub listdir_keys "NACA0012" (World ∅ [])
    = (Raise (ValueError "Airfoil file not foud"), World ∅ []) /\
  (exists k,
     calls (run solver_stub listdir_keys "NACA0012"
              (World {[ "NACA0012.dat" := "xy" ]} [])).2 =
       [] ++
       take (S k) ((fun re => XfArgs "NACA0012" half_degree_sweep "Polar" re
                                false false 5000) <$> reynolds)).
Proof.
  pose proof (run_coordinate_file_mode solver_stub listdir_keys "NACA0012"
                (World {[ "NACA0012.dat" := "xy" ]} []) eq_refl)
    as (H1 & _ & H3 & H4 & _ & H6).
  pose proof (run_coordinate_file_mode solver_stub listdir_keys "NACA0012"
                (World ∅ []) eq_refl)
    as (_ & _ & _ & _ & H5 & _).
  split_and!; [exact H1 | exact H3 | exact H4 | by apply H5 |].
  apply H6. right. by eexists.
Defined.

(** ** More on [safe_rename] *)

(** A rename between two different plain names of a directory of plain
    names, with the source in place, returns normally: the destination takes the content of the source,
    the source is gone, and no other name changes. *)
Theorem safe_rename_moves (old new : string) (d : dir) (c : string) :
  plain_name old = true -> plain_name new = true -> plain_dir d = true ->
  old <> new -> d !! old = Some c ->
  exists d',
    safe_rename old new d = (Ok tt, d') /\
    d' !! new = Some c /\ d' !! old = None /\
    forall g, g <> old -> g <> new -> d' !! g = d !! g.
Proof.
  intros _ _ _ Hne Hold. eexists. split; [by apply safe_rename_ok |].
  split_and!.
  - apply lookup_insert_eq.
  - rewrite lookup_insert_ne by done. apply lookup_delete_eq.
  - intros g Ho Hn. by rewrite lookup_insert_ne, !lookup_delete_ne.
Qed.

Lemma safe_rename_moves_witness :
  plain_name "Coordinates_naca0012" = true /\
  plain_name "naca0012.dat" = true /\ plain_dir dir_after_run = true /\
  "Coordinates_naca0012" <> "naca0012.dat" /\
  dir_after_run !! "Coordinates_naca0012" = Some "xy-new" /\
  exists d',
    safe_rename "Coordinates_naca0012" "naca0012.dat" dir_after_run
      = (Ok tt, d') /\
    d' !! "naca0012.dat" = Some "xy-new" /\
    d' !! "Coordinates_naca0012" = None /\
    forall g, g <> "Coordinates_naca0012" -> g <> "naca0012.dat" ->
              d' !! g = dir_after_run !! g.
Proof.
  split_and!; [reflexivity | reflexivity | vm_compute; reflexivity
              | done | done |].
  apply (safe_rename_moves "Coordinates_naca0012" "naca0012.dat"
           dir_after_run "xy-new" eq_refl eq_refl eq_refl); done.
Defined.

(** A rename whose source is missing raises for the source, and has by
    then deleted the destination; no other name changes. *)
Theorem safe_rename_missing_source (old new : string) (d : dir) :
  d !! old = None ->
  safe_rename old new d = (Raise (FileNotFoundError old), delete new d) /\
  (safe_rename old new d).2 !! new = None.
Proof.
  intros Hold. rewrite safe_rename_eq.
  assert (delete new d !! old = None) as ->.
  { apply lookup_delete_None. by right. }
  split; [done |]. apply lookup_delete_eq.
Qed.

Lemma safe_rename_missing_source_witness :
  dir_after_run !! "Coordinates_other" = None /\
  dir_after_run !! "naca0012.dat" = Some "xy-old" /\
  safe_rename "Coordinates_other" "naca0012.dat" dir_after_run
    = (Raise (FileNotFoundError "Coordinates_other"),
       delete "naca0012.dat" dir_after_run) /\
  (safe_rename "Coordinates_other" "naca0012.dat" dir_after_run).2
    !! "naca0012.dat" = None.
Proof.
  split_and!; [done | done | |];
    apply (safe_rename_missing_source "Coordinates_other" "naca0012.dat"
             dir_after_run); done.
Defined.

(** ** When [cleanup] raises *)

Section Outcome.

Variable airfoil : string.
Implicit Types (d : dir) (l : list string) (p q : string).

Lemma for_each_app {S A} (l1 l2 : list A) (body : A -> M S unit) s :
  for_each (l1 ++ l2) body s =
    match for_each l1 body s with
    | (Ok _, s') => for_each l2 body s'
    | (Raise e, s') => (Raise e, s')
    end.
Proof.
  revert s. induction l1 as [|x l1 IH]; intros s; [done |].
  rewrite <- app_comm_cons, !for_each_cons.
  destruct (body x s) as [[[]|e] s1]; [apply IH | done].
Qed.

(** One step on a generated file that is in place and is not its own
    destination. *)
Lemma step_moves p d c :
  generated p = true -> dest airfoil p <> p -> d !! p = Some c ->
  cleanup_file airfoil p d =
    (Ok tt, <[dest airfoil p := c]> (delete p (delete (dest airfoil p) d))).
Proof.
  intros Hg Hne Hp. unfold generated, dest in *.
  destruct (is_coord p) eqn:Ec; [|destruct (is_polar p) eqn:Ep];
    [| |done].
  - rewrite cleanup_file_coord by done. by apply safe_rename_ok.
  - rewrite cleanup_file_polar by done. by apply safe_rename_ok.
Qed.

(** The loop over an admissible listing stops exactly at a listed
    [Coordinates_] file that is its own destination. *)
Lemma loop_outcome l d :
  NoDup l ->
  (forall q, q ∈ l -> generated q = true -> is_Some (d !! q)) ->
  (is_coord (dat airfoil) = true /\ dat airfoil ∈ l /\
   exists d', for_each l (cleanup_file airfoil) d
                = (Raise (FileNotFoundError (dat airfoil)), d') /\
              d' !! dat airfoil = None) \/
  (~ (is_coord (dat airfoil) = true /\ dat airfoil ∈ l) /\
   exists d', for_each l (cleanup_file airfoil) d = (Ok tt, d')).
Proof.
  revert d. induction l as [|p l IH]; intros d Hnd Hin.
  { right. split; [|by eexists]. intros (_ & H). by apply elem_of_nil in H. }
  apply NoDup_cons in Hnd as [Hp Hnd]. rewrite for_each_cons.
  destruct (generated p) eqn:Eg.
  - destruct (Hin p) as [c Hc]; [left | done |].
    destruct (decide (dest airfoil p = p)) as [Hself|Hne].
    + (* the file is its own destination *)
      assert (Hcp : is_coord p = true).
      { unfold dest in Hself. destruct (is_coord p); [done |].
        by apply txt_ne_self in Hself. }
      assert (Hpd : p = dat airfoil).
      { unfold dest in Hself. by rewrite Hcp in Hself. }
      left. rewrite <- Hpd. split; [done |]. split; [left |].
      rewrite cleanup_file_coord, <- Hpd, safe_rename_same by done.
      eexists. split; [done |]. apply lookup_delete_eq.
    + rewrite (step_moves p d c Eg Hne Hc).
      assert (Hpd : is_coord (dat airfoil) = true -> p <> dat airfoil).
      { intros Hcd ->. apply Hne. unfold dest. by rewrite Hcd. }
      destruct (IH (<[dest airfoil p := c]>
                      (delete p (delete (dest airfoil p) d))) Hnd)
        as [(Hcd & Hl & Hr)|(Hn & Hr)].
      * intros q Hq Hgq.
        destruct (decide (q = dest airfoil p)) as [->|Hqd].
        -- rewrite lookup_insert_eq. eauto.
        -- rewrite lookup_insert_ne by done.
           rewrite !lookup_delete_ne by (done || by intros ->).
           apply Hin; [by right | done].
      * left. split; [done |]. split; [by right | done].
      * right. split; [|done]. intros (Hcd & Hl).
        apply elem_of_cons in Hl as [Hl|Hl]; [by apply (Hpd Hcd) |].
        by apply Hn.
  - assert (Hcp : is_coord p = false).
    { unfold generated in Eg. by destruct (is_coord p). }
    assert (Hpp : is_polar p = false).
    { unfold generated in Eg. rewrite Hcp in Eg. done. }
    rewrite cleanup_file_other by done. simpl.
    destruct (IH d Hnd) as [(Hcd & Hl & Hr)|(Hn & Hr)].
    + intros q Hq. apply Hin. by right.
    + left. split; [done |]. split; [by right | done].
    + right. split; [|done]. intros (Hcd & Hl).
      apply elem_of_cons in Hl as [Hl|Hl]; [congruence |].
      by apply Hn.
Qed.

End Outcome.



(** The loop runs to its end unless the identifier's own
    [airfoil + ".dat"] is a listed [Coordinates_] file. *)
Lemma cleanup_returns_unless_own
    (os_listdir : dir -> list string) (airfoil : string) (d : dir) :
  listdir_ok os_listdir ->
  is_coord (dat airfoil) = false \/ d !! dat airfoil = None ->
  exists d', cleanup os_listdir airfoil d = (Ok tt, d').
Proof.
  intros Hok Hcase. rewrite cleanup_eq.
  set (d0 := delete ":00.bl" d). destruct (Hok d0) as [Hnd Hin].
  destruct (loop_outcome airfoil (os_listdir d0) d0 Hnd)
    as [(Hcd & Hl & _)|(_ & Hr)]; [| | done].
  - intros q Hq _. by apply Hin.
  - exfalso. destruct Hcase as [Hc|Hnone]; [congruence |].
    apply Hin in Hl as [c Hc]. unfold d0 in Hc.
    apply lookup_delete_Some in Hc as [_ Hc]. congruence.
Qed.

(** In every other case [cleanup] returns normally, for every listing
    order: when [airfoil + ".dat"] does not start with ["Coordinates_"]
    or is not in the directory.
    The identifier and the names of the directory are plain names:
    no path separator, so every rename stays inside the directory. *)
Theorem cleanup_returns
    (os_listdir : dir -> list string) (airfoil : string) (d : dir) :
  plain_name airfoil = true -> plain_dir d = true ->
  listdir_ok os_listdir ->
  is_coord (dat airfoil) = false \/ d !! dat airfoil = None ->
  exists d', cleanup os_listdir airfoil d = (Ok tt, d').
Proof. intros _ _. apply cleanup_returns_unless_own. Qed.

Lemma cleanup_returns_witness :
  plain_name "naca0012" = true /\ plain_dir dir_after_run = true /\
  listdir_ok listdir_keys /\
  (is_coord (dat "naca0012") = false \/
   dir_after_run !! dat "naca0012" = None) /\
  exists d', cleanup listdir_keys "naca0012" dir_after_run = (Ok tt, d').
Proof.
  split; [reflexivity |]. split; [vm_compute; reflexivity |].
  split_and!; [apply listdir_keys_ok | by left |].
  apply (cleanup_returns listdir_keys "naca0012" dir_after_run
           eq_refl eq_refl);
    [apply listdir_keys_ok | by left].
Defined.

(** ** What [cleanup] does to the generated files *)

Lemma txt_inj (p q : string) : txt p = txt q -> p = q.
Proof. intros H. by apply app_suffix_inj in H as [? _]. Qed.

Lemma polar_not_coord (p : string) : is_polar p = true -> is_coord p = false.
Proof.
  intros Hp. apply not_true_is_false. intros Hc.
  apply coord_not_polar in Hc. congruence.
Qed.

Lemma cleanup_no_temp
    (os_listdir : dir -> list string) (airfoil : string) (d : dir) :
  (cleanup os_listdir airfoil d).2 !! ":00.bl" = None.
Proof.
  rewrite cleanup_eq.
  destruct (for_each _ _ _) as [o d'] eqn:Hrun. simpl.
  rewrite (loop_frame _ _ _ _ _ _ Hrun (bl_untouched _ _)).
  apply lookup_delete_eq.
Qed.

(** A polar file whose [".txt"] name is free is moved there. *)
Lemma cleanup_polar_moved
    (os_listdir : dir -> list string) (airfoil : string) (d : dir)
    (p c : string) :
  listdir_ok os_listdir ->
  is_coord (dat airfoil) = false -> is_polar (dat airfoil) = false ->
  (forall q, is_polar q = true -> is_Some (d !! q) -> d !! txt q = None) ->
  is_polar p = true -> d !! p = Some c ->
  exists d',
    cleanup os_listdir airfoil d = (Ok tt, d') /\
    d' !! txt p = Some c /\ d' !! p = None.
Proof.
  intros Hok Hdc Hdp Hfree Hp Hc.
  assert (Hcp := polar_not_coord p Hp).
  assert (Hpbl : p <> ":00.bl") by (by intros ->).
  rewrite cleanup_eq. set (d0 := delete ":00.bl" d).
  assert (Hd0 : forall q x, d0 !! q = Some x -> d !! q = Some x).
  { intros q x Hq. by apply lookup_delete_Some in Hq as [_ Hq]. }
  assert (Hc0 : d0 !! p = Some c) by (unfold d0; by rewrite lookup_delete_ne).
  destruct (Hok d0) as [Hnd Hin].
  destruct (loop_ok airfoil Hdc Hdp (os_listdir d0) d0 Hnd) as [d' Hrun].
  { intros q Hq _. by apply Hin. }
  exists d'. split; [done |].
  assert (Hpl : p ∈ os_listdir d0) by (apply Hin; eauto).
  (* a listed name is never the [.txt] name of a polar file *)
  assert (Hnotxt : forall q, q ∈ os_listdir d0 -> is_polar q = true ->
                             forall r, r ∈ os_listdir d0 -> r <> txt q).
  { intros q Hq Hpq r Hr ->.
    apply Hin in Hq as [x Hx]. apply Hin in Hr as [y Hy].
    apply Hd0 in Hx. apply Hd0 in Hy.
    rewrite (Hfree q Hpq) in Hy; [done | eauto]. }
  apply list_elem_of_split in Hpl as (l1 & l2 & Hl).
  rewrite Hl in Hnd, Hrun, Hnotxt.
  apply NoDup_app in Hnd as (_ & Hp1 & Hnd2).
  apply NoDup_cons in Hnd2 as [Hp2 _].
  assert (Hp1' : p ∉ l1).
  { intros H. apply (Hp1 p H). left. }
  (* [p] is untouched by the renames of the other listed files *)
  assert (Hunt : forall l, l ⊆ l1 ++ p :: l2 -> p ∉ l ->
                           ~ touched airfoil l p).
  { intros l Hsub Hnin (q & Hq & [[Hcq [->| ->]] | (Hcq & Hpq & [->|E])]);
      [done | congruence | done |].
    apply (Hnotxt q (Hsub q Hq) Hpq p); [|done].
    apply elem_of_app. right. left. }
  rewrite for_each_app in Hrun.
  destruct (for_each l1 _ d0) as [[[]|e] d1] eqn:Hrun1; [|discriminate].
  rewrite for_each_cons in Hrun.
  destruct (cleanup_file airfoil p d1) as [[[]|e] d2] eqn:Hstep;
    [|discriminate].
  assert (Hc1 : d1 !! p = Some c).
  { rewrite (loop_frame _ _ _ _ _ _ Hrun1); [done |].
    apply Hunt; [|done]. intros x Hx. apply elem_of_app. by left. }
  rewrite cleanup_file_polar in Hstep by done.
  rewrite (safe_rename_ok _ _ _ c) in Hstep
    by (done || apply not_eq_sym, txt_ne_self).
  injection Hstep as <-.
  assert (Hsub2 : l2 ⊆ l1 ++ p :: l2).
  { intros x Hx. apply elem_of_app. right. by right. }
  split.
  - rewrite (loop_frame _ _ _ _ _ _ Hrun); [apply lookup_insert_eq |].
    intros (q & Hq & [[Hcq [E|E]] | (Hcq & Hpq & [E|E])]).
    + subst q. apply txt_not_coord in Hp. congruence.
    + by apply eq_sym, dat_ne_txt in E.
    + subst q. assert (Hpin : p ∈ l1 ++ p :: l2).
      { apply elem_of_app. right. left. }
      apply (Hnotxt p Hpin Hp (txt p)); [by apply Hsub2 | done].
    + apply txt_inj in E. subst q. done.
  - rewrite (loop_frame _ _ _ _ _ _ Hrun (Hunt l2 Hsub2 Hp2)).
    rewrite lookup_insert_ne by apply txt_ne_self.
    apply lookup_delete_eq.
Qed.

(** When [airfoil + ".dat"] is not a generated name and no polar file
    has its [".txt"] name taken already, [cleanup] moves every polar file
    to its name with [".txt"] appended, for every listing order: the
    content is under the new name and the old name is gone.
    The identifier and the names of the directory are plain names:
    no path separator, so every rename stays inside the directory. *)
Theorem cleanup_renames_polar
    (os_listdir : dir -> list string) (airfoil : string) (d : dir)
    (p c : string) :
  plain_name airfoil = true -> plain_dir d = true ->
  listdir_ok os_listdir ->
  is_coord (dat airfoil) = false -> is_polar (dat airfoil) = false ->
  (forall q, is_polar q = true -> is_Some (d !! q) -> d !! txt q = None) ->
  is_polar p = true -> d !! p = Some c ->
  exists d',
    cleanup os_listdir airfoil d = (Ok tt, d') /\
    d' !! txt p = Some c /\ d' !! p = None.
Proof. intros _ _. apply cleanup_polar_moved. Qed.

Lemma cleanup_renames_polar_witness :
  plain_name "naca0012" = true /\ plain_dir dir_two_polars = true /\
  listdir_ok listdir_keys /\
  is_coord (dat "naca0012") = false /\ is_polar (dat "naca0012") = false /\
  (forall q, is_polar q = true -> is_Some (dir_two_polars !! q) ->
             dir_two_polars !! txt q = None) /\
  is_polar "Polar_naca0012_10000" = true /\
  dir_two_polars !! "Polar_naca0012_10000" = Some "polar-1" /\
  exists d',
    cleanup listdir_keys "naca0012" dir_two_polars = (Ok tt, d') /\
    d' !! txt "Polar_naca0012_10000" = Some "polar-1" /\
    d' !! "Polar_naca0012_10000" = None.
Proof.
  split; [reflexivity |]. split; [vm_compute; reflexivity |].
  assert (Hfree : forall q, is_polar q = true ->
                    is_Some (dir_two_polars !! q) ->
                    dir_two_polars !! txt q = None).
  { intros q Hq [x Hx]. unfold dir_two_polars in Hx.
    repeat (apply lookup_insert_Some in Hx as [[<- _]|[_ Hx]];
            [first [discriminate Hq | reflexivity] |]).
    by apply lookup_singleton_Some in Hx as [<- _]. }
  split_and!; [apply listdir_keys_ok | done | done | done | done | done |].
  apply (cleanup_renames_polar listdir_keys "naca0012" dir_two_polars
           "Polar_naca0012_10000" "polar-1"
           eq_refl eq_refl);
    [apply listdir_keys_ok | done | done | done | done | done].
Defined.

(** With a single [Coordinates_] file, [cleanup] puts its content under
    [airfoil + ".dat"] whatever was there before and whatever the listing
    order, and the [Coordinates_] name is gone.
    The identifier and the names of the directory are plain names:
    no path separator, so every rename stays inside the directory. *)
Theorem cleanup_single_coordinates
    (os_listdir : dir -> list string) (airfoil : string) (d : dir)
    (f c : string) :
  plain_name airfoil = true -> plain_dir d = true ->
  listdir_ok os_listdir ->
  is_coord (dat airfoil) = false -> is_polar (dat airfoil) = false ->
  is_coord f = true -> d !! f = Some c ->
  (forall f', is_coord f' = true -> is_Some (d !! f') -> f' = f) ->
  exists d',
    cleanup os_listdir airfoil d = (Ok tt, d') /\
    d' !! dat airfoil = Some c /\ d' !! f = None.
Proof.
  intros _ _.
  intros Hok Hdc Hdp Hcf Hf Honly.
  destruct (cleanup_tidy os_listdir airfoil d Hok Hdc Hdp)
    as (d' & Hrun & _ & Hcoord & Hdat & _).
  exists d'. split_and!; [done | | by apply Hcoord].
  destruct (Hok (delete ":00.bl" d)) as [_ Hin].
  destruct (last _) as [f'|] eqn:El.
  - apply last_Some_elem_of, list_elem_of_filter in El as [Hcf' Hf'].
    apply Hin in Hf' as [x Hx]. apply lookup_delete_Some in Hx as [_ Hx].
    rewrite (Honly f' Hcf') in Hdat by eauto. by rewrite Hdat.
  - apply last_None in El.
    assert (Hfl : f ∈ filter (fun p => is_coord p = true)
                        (os_listdir (delete ":00.bl" d))).
    { apply list_elem_of_filter. split; [done |]. apply Hin.
      rewrite lookup_delete_ne; [eauto | by intros <-]. }
    rewrite El in Hfl. by apply elem_of_nil in Hfl.
Qed.

Lemma cleanup_single_coordinates_witness :
  plain_name "naca0012" = true /\ plain_dir dir_after_run = true /\
  listdir_ok listdir_keys /\
  is_coord (dat "naca0012") = false /\ is_polar (dat "naca0012") = false /\
  is_coord "Coordinates_naca0012" = true /\
  dir_after_run !! "Coordinates_naca0012" = Some "xy-new" /\
  (forall f', is_coord f' = true -> is_Some (dir_after_run !! f') ->
              f' = "Coordinates_naca0012") /\
  exists d',
    cleanup listdir_keys "naca0012" dir_after_run = (Ok tt, d') /\
    d' !! dat "naca0012" = Some "xy-new" /\
    d' !! "Coordinates_naca0012" = None.
Proof.
  split; [reflexivity |]. split; [vm_compute; reflexivity |].
  assert (Honly : forall f', is_coord f' = true ->
                    is_Some (dir_after_run !! f') ->
                    f' = "Coordinates_naca0012").
  { intros f' Hc [x Hx]. unfold dir_after_run in Hx.
    repeat (apply lookup_insert_Some in Hx as [[<- _]|[_ Hx]];
            [first [discriminate Hc | reflexivity] |]).
    by apply lookup_singleton_Some in Hx as [<- _]. }
  split_and!; [apply listdir_keys_ok | done | done | done | done | done |].
  apply (cleanup_single_coordinates listdir_keys "naca0012" dir_after_run
           "Coordinates_naca0012" "xy-new"
           eq_refl eq_refl);
    [apply listdir_keys_ok | done | done | done | done | done].
Defined.

(** On a directory without [Coordinates_] and [Polar_] files, [cleanup]
    only removes [":00.bl"], for every identifier and listing order. *)
Theorem cleanup_plain_directory
    (os_listdir : dir -> list string) (airfoil : string) (d : dir) :
  listdir_ok os_listdir ->
  (forall f, is_Some (d !! f) -> is_coord f = false /\ is_polar f = false) ->
  cleanup os_listdir airfoil d = (Ok tt, delete ":00.bl" d).
Proof.
  intros Hok Hplain. rewrite cleanup_eq. apply loop_noop.
  intros p Hp. apply (proj2 (Hok _)) in Hp as [c Hc].
  apply lookup_delete_Some in Hc as [_ Hc]. apply Hplain. eauto.
Qed.

Lemma cleanup_plain_directory_witness :
  listdir_ok listdir_keys /\
  (forall f, is_Some (dir_plain !! f) ->
             is_coord f = false /\ is_polar f = false) /\
  cleanup listdir_keys "myfoil" dir_plain = (Ok tt, delete ":00.bl" dir_plain).
Proof.
  assert (Hplain : forall f, is_Some (dir_plain !! f) ->
                     is_coord f = false /\ is_polar f = false).
  { intros f [x Hx]. unfold dir_plain in Hx.
    repeat (apply lookup_insert_Some in Hx as [[<- _]|[_ Hx]]; [done |]).
    by apply lookup_singleton_Some in Hx as [<- _]. }
  split_and!; [apply listdir_keys_ok | done |].
  apply (cleanup_plain_directory listdir_keys "myfoil" dir_plain);
    [apply listdir_keys_ok | done].
Defined.

(** ** More on the batch loop *)

Section Run.

Variable xf_call : solver.
Variable os_listdir : dir -> list string.
Variable airfoil : string.
Implicit Types (w : world) (re : Py.num) (sweep : list float).

Lemma reynolds_values :
  reynolds = [Py.PyFloat 10000; Py.PyFloat 50000; Py.PyInt 100000].
Proof. vm_compute. reflexivity. Qed.

(** A loop that returns has issued every call. *)
Lemma steps_ok_calls sweep (l : list Py.num) w w' :
  for_each l (polar_step xf_call airfoil sweep) w = (Ok tt, w') ->
  calls w' = calls w ++ (polar_call airfoil sweep <$> l).
Proof.
  revert w. induction l as [|re l IH]; intros w Hrun.
  - injection Hrun as <-. simpl. by rewrite app_nil_r.
  - rewrite for_each_cons, polar_step_eq in Hrun.
    destruct (_ || _); [|discriminate].
    pose proof (xf_invoke_calls xf_call (polar_call airfoil sweep re) w) as Hc.
    destruct (xf_invoke _ _ w) as [[[]|e] w1]; [|discriminate].
    simpl in Hc. rewrite (IH _ Hrun), Hc, <- app_assoc. done.
Qed.

(** With its coordinate file kept in place by a solver that returns, the
    loop in coordinate-file mode runs to its end. *)
Lemma steps_file sweep (l : list Py.num) w :
  solver_returns xf_call ->
  (forall a d, has_airfoil_file airfoil d ->
               has_airfoil_file airfoil (xf_call a d).2) ->
  has_airfoil_file airfoil (files w) ->
  exists w',
    for_each l (polar_step xf_call airfoil sweep) w = (Ok tt, w') /\
    calls w' = calls w ++ (polar_call airfoil sweep <$> l).
Proof.
  intros Hret Hkeep. revert w. induction l as [|re l IH]; intros w Hw.
  - exists w. simpl. by rewrite app_nil_r.
  - assert (Hex : bool_decide (is_Some (files w !! airfoil))
                  || bool_decide (is_Some (files w !! dat airfoil)) = true).
    { destruct Hw as [H|H]; rewrite (bool_decide_eq_true_2 _ H);
        [done | apply orb_true_r]. }
    rewrite for_each_cons, polar_step_eq, <- orb_assoc, Hex, orb_true_r.
    pose proof (xf_invoke_calls xf_call (polar_call airfoil sweep re) w) as Hc.
    pose proof (xf_invoke_returns xf_call (polar_call airfoil sweep re) w Hret)
      as Ho.
    assert (Hw1 : has_airfoil_file airfoil
                    (files (xf_invoke xf_call
                              (polar_call airfoil sweep re) w).2)).
    { unfold xf_invoke.
      specialize (Hkeep (polar_call airfoil sweep re) (files w) Hw).
      by destruct (xf_call _ (files w)). }
    destruct (xf_invoke _ _ w) as [o w1]; simpl in Hc, Ho, Hw1. subst o.
    destruct (IH w1 Hw1) as (w' & Hrun & Hcs). exists w'.
    split; [done |]. by rewrite Hcs, Hc, <- app_assoc.
Qed.

Lemma xf_invoke_eq a w o d1 :
  xf_call a (files w) = (o, d1) ->
  xf_invoke xf_call a w = (o, World d1 (calls w ++ [a])).
Proof. unfold xf_invoke. by intros ->. Qed.

End Run.

(** A parametric identifier never makes [cleanup] rename a file onto
    itself. *)
Lemma naca_dat_not_coord (airfoil : string) :
  Py.startswith airfoil "naca" = true -> is_coord (dat airfoil) = false.
Proof. rewrite startswith_spec. intros [r ->]. reflexivity. Qed.

(** A [run] that returns normally has issued the call of every Reynolds
    number, in order, and has left no [":00.bl"] behind. *)
Theorem run_returns_after_all_calls
    (xf_call : solver) (os_listdir : dir -> list string)
    (airfoil : string) (w : world) :
  (run xf_call os_listdir airfoil w).1 = Ok tt ->
  calls (run xf_call os_listdir airfoil w).2 =
    calls w ++ (polar_call airfoil half_degree_sweep <$> reynolds) /\
  files (run xf_call os_listdir airfoil w).2 !! ":00.bl" = None.
Proof.
  rewrite run_eq.
  destruct (for_each _ _ w) as [[[]|e] w1] eqn:Hloop; [|discriminate].
  intros _. apply steps_ok_calls in Hloop. split.
  - by rewrite lift_fs_calls.
  - unfold lift_fs.
    pose proof (cleanup_no_temp os_listdir airfoil (files w1)) as Hbl.
    by destruct (cleanup os_listdir airfoil (files w1)).
Qed.

Lemma run_returns_after_all_calls_witness :
  (run solver_stub listdir_keys "naca0012" (World ∅ [])).1 = Ok tt /\
  calls (run solver_stub listdir_keys "naca0012" (World ∅ [])).2 =
    [] ++ (polar_call "naca0012" half_degree_sweep <$> reynolds) /\
  files (run solver_stub listdir_keys "naca0012" (World ∅ [])).2
    !! ":00.bl" = None.
Proof.
  assert (H : (run solver_stub listdir_keys "naca0012" (World ∅ [])).1
              = Ok tt) by (vm_compute; reflexivity).
  split; [exact H |].
  apply (run_returns_after_all_calls solver_stub listdir_keys "naca0012"
           (World ∅ []) H).
Defined.

(** An exception of the first solver call ends [run] with that
    exception: one call was issued, [cleanup] is not run, and the
    directory is as the solver left it. *)
Theorem run_solver_exception
    (xf_call : solver) (os_listdir : dir -> list string)
    (airfoil : string) (w : world) (e : exn) (d1 : dir) :
  Py.startswith airfoil "naca" = true \/ has_airfoil_file airfoil (files w) ->
  xf_call (polar_call airfoil half_degree_sweep (Py.PyFloat 10000)) (files w)
    = (Raise e, d1) ->
  run xf_call os_listdir airfoil w =
    (Raise e,
     World d1 (calls w ++
               [polar_call airfoil half_degree_sweep (Py.PyFloat 10000)])).
Proof.
  intros Hmode Hcall. rewrite run_eq, reynolds_values.
  rewrite for_each_cons, polar_step_eq.
  assert (Py.startswith airfoil "naca"
          || bool_decide (is_Some (files w !! airfoil))
          || bool_decide (is_Some (files w !! dat airfoil)) = true) as ->.
  { destruct Hmode as [->|[H|H]]; [done | |];
      rewrite (bool_decide_eq_true_2 _ H);
      [by rewrite orb_true_r | apply orb_true_r]. }
  by rewrite (xf_invoke_eq _ _ _ _ _ Hcall).
Qed.

Lemma run_solver_exception_witness :
  (Py.startswith "naca0012" "naca" = true \/
   has_airfoil_file "naca0012" (files (World dir_plain []))) /\
  solver_failing
    (polar_call "naca0012" half_degree_sweep (Py.PyFloat 10000)) dir_plain
    = (Raise (ExternalError "xfoil"), <[":00.bl" := "bl"]> dir_plain) /\
  run solver_failing listdir_keys "naca0012" (World dir_plain []) =
    (Raise (ExternalError "xfoil"),
     World (<[":00.bl" := "bl"]> dir_plain)
       ([] ++ [polar_call "naca0012" half_degree_sweep (Py.PyFloat 10000)])).
Proof.
  split_and!; [by left | done |].
  apply (run_solver_exception solver_failing listdir_keys "naca0012"
           (World dir_plain [])); [by left | done].
Defined.

(** The coordinate file is looked for again in every iteration: when
    the first solver call returns but leaves neither [airfoil] nor
    [airfoil + ".dat"], [run] raises the missing-file error after that
    one call, without running [cleanup]. *)
Theorem run_rechecks_file
    (xf_call : solver) (os_listdir : dir -> list string)
    (airfoil : string) (w : world) (d1 : dir) :
  Py.startswith airfoil "naca" = false ->
  has_airfoil_file airfoil (files w) ->
  xf_call (polar_call airfoil half_degree_sweep (Py.PyFloat 10000)) (files w)
    = (Ok tt, d1) ->
  d1 !! airfoil = None -> d1 !! dat airfoil = None ->
  run xf_call os_listdir airfoil w =
    (Raise (ValueError "Airfoil file not foud"),
     World d1 (calls w ++
               [polar_call airfoil half_degree_sweep (Py.PyFloat 10000)])).
Proof.
  intros Hnaca Hw Hcall Ha Hd. rewrite run_eq, reynolds_values.
  rewrite for_each_cons, polar_step_eq, Hnaca.
  assert (false || bool_decide (is_Some (files w !! airfoil))
          || bool_decide (is_Some (files w !! dat airfoil)) = true) as ->.
  { destruct Hw as [H|H]; rewrite (bool_decide_eq_true_2 _ H);
      [done | apply orb_true_r]. }
  rewrite (xf_invoke_eq _ _ _ _ _ Hcall).
  rewrite for_each_cons, polar_step_eq, Hnaca. simpl.
  rewrite Ha, Hd. rewrite !bool_decide_eq_false_2 by (by intros [? ?]).
  done.
Qed.

Lemma run_rechecks_file_witness :
  Py.startswith "myfoil" "naca" = false /\
  has_airfoil_file "myfoil" (files (World dir_plain [])) /\
  solver_consuming
    (polar_call "myfoil" half_degree_sweep (Py.PyFloat 10000)) dir_plain
    = (Ok tt, delete "myfoil.dat" (delete "myfoil" dir_plain)) /\
  run solver_consuming listdir_keys "myfoil" (World dir_plain []) =
    (Raise (ValueError "Airfoil file not foud"),
     World (delete "myfoil.dat" (delete "myfoil" dir_plain))
       ([] ++ [polar_call "myfoil" half_degree_sweep (Py.PyFloat 10000)])).
Proof.
  assert (Hw : has_airfoil_file "myfoil" (files (World dir_plain []))).
  { right. by eexists. }
  split_and!; [done | exact Hw | done |].
  apply (run_rechecks_file solver_consuming listdir_keys "myfoil"
           (World dir_plain [])); [done | exact Hw | done | done | done].
Defined.

Lemma solver_stub_keeps (airfoil : string) (a : xf_args) (d : dir) :
  has_airfoil_file airfoil d ->
  has_airfoil_file airfoil (solver_stub a d).2.
Proof.
  assert (Hk : forall f, is_Some (d !! f) ->
                 is_Some ((solver_stub a d).2 !! f)).
  { intros f Hf. simpl. rewrite !lookup_insert_is_Some'. auto. }
  intros [H|H]; [left | right]; by apply Hk.
Qed.

(** In coordinate-file mode, with a solver that returns and keeps the
    coordinate file in place, [run] issues one call per Reynolds number,
    in order, each in coordinate-file mode. *)
Theorem run_coordinate_file_all_calls
    (xf_call : solver) (os_listdir : dir -> list string)
    (airfoil : string) (w : world) :
  Py.startswith airfoil "naca" = false ->
  solver_returns xf_call ->
  (forall a d, has_airfoil_file airfoil d ->
               has_airfoil_file airfoil (xf_call a d).2) ->
  has_airfoil_file airfoil (files w) ->
  calls (run xf_call os_listdir airfoil w).2 =
    calls w ++
    ((fun re => XfArgs airfoil half_degree_sweep "Polar" re false false 5000)
       <$> reynolds).
Proof.
  intros Hnaca Hret Hkeep Hw.
  destruct (steps_file xf_call airfoil half_degree_sweep reynolds w
              Hret Hkeep Hw) as (w' & Hrun & Hcs).
  rewrite run_calls, Hrun. simpl. rewrite Hcs.
  unfold polar_call. by rewrite Hnaca.
Qed.

Lemma run_coordinate_file_all_calls_witness :
  Py.startswith "myfoil" "naca" = false /\
  solver_returns solver_stub /\
  (forall a d, has_airfoil_file "myfoil" d ->
               has_airfoil_file "myfoil" (solver_stub a d).2) /\
  has_airfoil_file "myfoil" (files (World dir_plain [])) /\
  calls (run solver_stub listdir_keys "myfoil" (World dir_plain [])).2 =
    [] ++
    ((fun re => XfArgs "myfoil" half_degree_sweep "Polar" re false false 5000)
       <$> reynolds).
Proof.
  assert (Hw : has_airfoil_file "myfoil" (files (World dir_plain []))).
  { right. by eexists. }
  split_and!; [done | apply solver_stub_returns
              | apply solver_stub_keeps | exact Hw |].
  apply (run_coordinate_file_all_calls solver_stub listdir_keys "myfoil"
           (World dir_plain []));
    [done | apply solver_stub_returns | apply solver_stub_keeps | exact Hw].
Defined.

(** Without an argument after the program name, [main] raises
    [IndexError] and nothing else happens: no solver call, no change of
    the directory. *)
Theorem main_missing_argument
    (xf_call : solver) (os_listdir : dir -> list string)
    (argv : list string) (w : world) :
  (length argv < 2)%nat ->
  main xf_call os_listdir argv w = (Raise IndexError, w).
Proof.
  intros Hlen. unfold main, parse_inputs.
  rewrite (lookup_ge_None_2 argv 1) by lia. done.
Qed.

Lemma main_missing_argument_witness :
  (length ["polargenerator.py"] < 2)%nat /\
  main solver_stub listdir_keys ["polargenerator.py"] (World dir_plain [])
    = (Raise IndexError, World dir_plain []).
Proof.
  split; [simpl; lia |].
  apply (main_missing_argument solver_stub listdir_keys
           ["polargenerator.py"] (World dir_plain [])).
  simpl; lia.
Defined.

(** ** The result of [cleanup] and the listing order *)

Section Order.

Variable airfoil : string.
Variable d : dir.
Hypothesis dat_not_coord : is_coord (dat airfoil) = false.
Hypothesis dat_not_polar : is_polar (dat airfoil) = false.
Hypothesis txt_free :
  forall q, is_polar q = true -> is_Some (d !! q) -> d !! txt q = None.

(** A polar name that is not the [".txt"] name of a polar file is free
    after [cleanup]. *)
Lemma cleanup_polar_free (os_listdir : dir -> list string) (d' : dir)
    (g : string) :
  listdir_ok os_listdir ->
  cleanup os_listdir airfoil d = (Ok tt, d') ->
  is_polar g = true ->
  (forall p, is_polar p = true -> is_Some (d !! p) -> g <> txt p) ->
  d' !! g = None.
Proof.
  intros Hok Hrun Hg Hnot.
  destruct (d !! g) as [c|] eqn:Hdg.
  - destruct (cleanup_polar_moved os_listdir airfoil d g c Hok
                dat_not_coord dat_not_polar txt_free Hg Hdg)
      as (d2 & Hrun2 & _ & Hgone).
    rewrite Hrun in Hrun2. by injection Hrun2 as <-.
  - rewrite cleanup_eq in Hrun.
    destruct (Hok (delete ":00.bl" d)) as [_ Hin].
    rewrite (loop_frame _ _ _ _ _ _ Hrun).
    { apply lookup_delete_None. by right. }
    intros (q & Hq & [[Hcq [->|E]] | (Hcq & Hpq & [->|E])]).
    + apply coord_not_polar in Hcq. congruence.
    + congruence.
    + apply Hin in Hq as [x Hx].
      apply lookup_delete_Some in Hx as [_ Hx]. congruence.
    + apply Hin in Hq as [x Hx].
      apply lookup_delete_Some in Hx as [_ Hx].
      apply (Hnot q Hpq); eauto.
Qed.

(** The content of a polar name after [cleanup], whatever the listing. *)
Lemma cleanup_polar_same (ls1 ls2 : dir -> list string) (d1 d2 : dir)
    (g : string) :
  listdir_ok ls1 -> listdir_ok ls2 ->
  cleanup ls1 airfoil d = (Ok tt, d1) -> cleanup ls2 airfoil d = (Ok tt, d2) ->
  is_polar g = true -> d1 !! g = d2 !! g.
Proof.
  intros Hok1 Hok2 Hrun1 Hrun2 Hg.
  destruct (decide (Exists (fun p => is_polar p = true /\ g = txt p)
                      (listdir_keys d))) as [Hex|Hnex].
  - apply Exists_exists in Hex as (p & Hp & Hpp & ->).
    apply (proj2 (listdir_keys_ok d)) in Hp as [c Hc].
    destruct (cleanup_polar_moved ls1 airfoil d p c Hok1
                dat_not_coord dat_not_polar txt_free Hpp Hc)
      as (e1 & He1 & Ht1 & _).
    destruct (cleanup_polar_moved ls2 airfoil d p c Hok2
                dat_not_coord dat_not_polar txt_free Hpp Hc)
      as (e2 & He2 & Ht2 & _).
    rewrite Hrun1 in He1. rewrite Hrun2 in He2.
    injection He1 as <-. injection He2 as <-. congruence.
  - assert (Hnot : forall p, is_polar p = true -> is_Some (d !! p) ->
                             g <> txt p).
    { intros p Hpp Hp ->. apply Hnex, Exists_exists. exists p.
      split; [by apply (listdir_keys_ok d) | done]. }
    rewrite (cleanup_polar_free ls1 d1 g Hok1 Hrun1 Hg Hnot).
    by rewrite (cleanup_polar_free ls2 d2 g Hok2 Hrun2 Hg Hnot).
Qed.

End Order.

(** When [airfoil + ".dat"] is not a generated name, no polar file has
    its [".txt"] name taken already and there is at most one
    [Coordinates_] file, the outcome of [cleanup] does not depend on the
    order in which the directory is listed.
    The identifier and the names of the directory are plain names:
    no path separator, so every rename stays inside the directory. *)
Theorem cleanup_order_independent
    (ls1 ls2 : dir -> list string) (airfoil : string) (d : dir) :
  plain_name airfoil = true -> plain_dir d = true ->
  listdir_ok ls1 -> listdir_ok ls2 ->
  is_coord (dat airfoil) = false -> is_polar (dat airfoil) = false ->
  (forall q, is_polar q = true -> is_Some (d !! q) -> d !! txt q = None) ->
  (forall f1 f2, is_coord f1 = true -> is_coord f2 = true ->
                 is_Some (d !! f1) -> is_Some (d !! f2) -> f1 = f2) ->
  cleanup ls1 airfoil d = cleanup ls2 airfoil d.
Proof.
  intros _ _.
  intros Hok1 Hok2 Hdc Hdp Hfree Hone.
  destruct (cleanup_tidy ls1 airfoil d Hok1 Hdc Hdp)
    as (d1 & Hrun1 & Hbl1 & Hc1 & Hdat1 & _).
  destruct (cleanup_tidy ls2 airfoil d Hok2 Hdc Hdp)
    as (d2 & Hrun2 & Hbl2 & Hc2 & Hdat2 & _).
  rewrite Hrun1, Hrun2. f_equal. apply map_eq. intros g.
  destruct (decide (g = dat airfoil)) as [->|Hgd].
  { (* the coordinate destination *)
    rewrite Hdat1, Hdat2.
    assert (Hlast : forall ls x, listdir_ok ls ->
              last (filter (fun p => is_coord p = true)
                      (ls (delete ":00.bl" d))) = Some x ->
              is_coord x = true /\ is_Some (d !! x)).
    { intros ls x Hok El.
      apply last_Some_elem_of, list_elem_of_filter in El as [Hcx Hx].
      apply (proj2 (Hok _)) in Hx as [c Hx].
      apply lookup_delete_Some in Hx as [_ Hx]. eauto. }
    assert (Hnone : forall ls x, listdir_ok ls ->
              is_coord x = true -> is_Some (d !! x) ->
              last (filter (fun p => is_coord p = true)
                      (ls (delete ":00.bl" d))) <> None).
    { intros ls x Hok Hcx Hx El. apply last_None in El.
      assert (Hin : x ∈ filter (fun p => is_coord p = true)
                          (ls (delete ":00.bl" d))).
      { apply list_elem_of_filter. split; [done |]. apply (Hok _).
        rewrite lookup_delete_ne; [done | by intros <-]. }
      rewrite El in Hin. by apply elem_of_nil in Hin. }
    destruct (last (filter _ (ls1 _))) as [x1|] eqn:E1;
      destruct (last (filter _ (ls2 _))) as [x2|] eqn:E2.
    - destruct (Hlast ls1 x1 Hok1 E1) as [Hx1 Hd1].
      destruct (Hlast ls2 x2 Hok2 E2) as [Hx2 Hd2].
      by rewrite (Hone x1 x2).
    - destruct (Hlast ls1 x1 Hok1 E1) as [Hx1 Hd1].
      by destruct (Hnone ls2 x1 Hok2 Hx1 Hd1).
    - destruct (Hlast ls2 x2 Hok2 E2) as [Hx2 Hd2].
      by destruct (Hnone ls1 x2 Hok1 Hx2 Hd2).
    - done. }
  destruct (is_coord g) eqn:Ecg.
  { by rewrite Hc1, Hc2. }
  destruct (is_polar g) eqn:Epg.
  { by apply (cleanup_polar_same airfoil d Hdc Hdp Hfree ls1 ls2). }
  destruct (decide (g = ":00.bl")) as [->|Hgb].
  { by rewrite Hbl1, Hbl2. }
  assert (Hfr : forall ls d', cleanup ls airfoil d = (Ok tt, d') ->
                              d' !! g = d !! g).
  { intros ls d' Hrun. rewrite cleanup_eq in Hrun.
    rewrite (loop_frame _ _ _ _ _ _ Hrun
               (plain_untouched _ _ _ Ecg Epg Hgd)).
    by apply lookup_delete_ne. }
  by rewrite (Hfr ls1 d1 Hrun1), (Hfr ls2 d2 Hrun2).
Qed.

Lemma dir_after_run_txt_free (q : string) :
  is_polar q = true -> is_Some (dir_after_run !! q) ->
  dir_after_run !! txt q = None.
Proof.
  intros Hq [x Hx]. unfold dir_after_run in Hx.
  repeat (apply lookup_insert_Some in Hx as [[<- _]|[_ Hx]];
          [first [discriminate Hq | reflexivity] |]).
  by apply lookup_singleton_Some in Hx as [<- _].
Qed.

Lemma dir_after_run_one_coordinates (f1 f2 : string) :
  is_coord f1 = true -> is_coord f2 = true ->
  is_Some (dir_after_run !! f1) -> is_Some (dir_after_run !! f2) -> f1 = f2.
Proof.
  assert (H : forall f, is_coord f = true -> is_Some (dir_after_run !! f) ->
                        f = "Coordinates_naca0012").
  { intros f Hc [x Hx]. unfold dir_after_run in Hx.
    repeat (apply lookup_insert_Some in Hx as [[<- _]|[_ Hx]];
            [first [discriminate Hc | reflexivity] |]).
    by apply lookup_singleton_Some in Hx as [<- _]. }
  intros H1 H2 H3 H4. by rewrite (H f1), (H f2).
Qed.

Lemma listdir_reverse_ok : listdir_ok listdir_reversed.
Proof.
  intros d. destruct (listdir_keys_ok d) as [Hnd Hin]. split.
  - unfold listdir_reversed. by rewrite reverse_Permutation.
  - intros f. unfold listdir_reversed. by rewrite elem_of_reverse.
Qed.

Lemma cleanup_order_independent_witness :
  plain_name "naca0012" = true /\ plain_dir dir_after_run = true /\
  listdir_ok listdir_keys /\
  listdir_ok listdir_reversed /\
  is_coord (dat "naca0012") = false /\ is_polar (dat "naca0012") = false /\
  (forall q, is_polar q = true -> is_Some (dir_after_run !! q) ->
             dir_after_run !! txt q = None) /\
  (forall f1 f2, is_coord f1 = true -> is_coord f2 = true ->
                 is_Some (dir_after_run !! f1) ->
                 is_Some (dir_after_run !! f2) -> f1 = f2) /\
  cleanup listdir_keys "naca0012" dir_after_run
    = cleanup listdir_reversed "naca0012" dir_after_run.
Proof.
  split; [reflexivity |]. split; [vm_compute; reflexivity |].
  split_and!; [apply listdir_keys_ok | apply listdir_reverse_ok | done | done
              | apply dir_after_run_txt_free
              | apply dir_after_run_one_coordinates |].
  apply (cleanup_order_independent listdir_keys
           listdir_reversed "naca0012" dir_after_run
           eq_refl eq_refl);
    [apply listdir_keys_ok | apply listdir_reverse_ok | done | done
    | apply dir_after_run_txt_free | apply dir_after_run_one_coordinates].
Defined.


